(** * pgcenter, internal/stat/netdev.go: network interface statistics

    A shallow embedding of [readNetdevs], [readNetdevsLocal],
    [readNetdevsRemote] and [countNetdevsUsage], and the properties of
    the snapshot acquisition and of the delta computation.

    Go's [float64] is IEEE 754 binary64 with round-to-nearest-even; it is
    modelled by the Standard Library's [spec_float] at precision 53 and
    maximal exponent 1024, so that every arithmetic operation of the source
    is the operation of the same name here, with its infinities, its signed
    zeros and its NaN. *)

From Stdlib Require Import ZArith List String Ascii Bool Lia.
From Stdlib Require Import Floats.SpecFloat.
Import ListNotations.

Local Open Scope Z_scope.

(** ** float64 *)

Module F64.

Definition prec : Z := 53.
Definition emax : Z := 1024.

Definition float64 : Type := spec_float.

(** A [spec_float] is a binary64 value when its mantissa is canonical and
    its exponent is in range; every Go [float64] is one. *)
Definition valid (x : float64) : bool := valid_binary prec emax x.

Definition add : float64 -> float64 -> float64 := SFadd prec emax.
Definition sub : float64 -> float64 -> float64 := SFsub prec emax.
Definition mul : float64 -> float64 -> float64 := SFmul prec emax.
Definition div : float64 -> float64 -> float64 := SFdiv prec emax.

(** [==], [<], [<=], [>] and [>=] of Go: false as soon as an operand is NaN. *)
Definition eqb : float64 -> float64 -> bool := SFeqb.
Definition ltb : float64 -> float64 -> bool := SFltb.
Definition leb : float64 -> float64 -> bool := SFleb.
Definition gtb (x y : float64) : bool := ltb y x.
Definition geb (x y : float64) : bool := leb y x.

(** Conversion of an integer, and of the integer constants of the source
    ([0], [100], [800]); exact below 2^53, hence for every [uint32]. *)
Definition of_Z (z : Z) : float64 := binary_normalize prec emax z 0 false.

Definition zero : float64 := S754_zero false.
Definition NaN : float64 := S754_nan.
Definition Inf (neg : bool) : float64 := S754_infinity neg.

Definition IsNaN (x : float64) : bool :=
  match x with S754_nan => true | _ => false end.

(** [math.IsInf(x, sign)] for [sign = 1] ([neg = false]) and [sign = -1]. *)
Definition IsInf (x : float64) (neg : bool) : bool :=
  match x with S754_infinity s => Bool.eqb s neg | _ => false end.

Definition Signbit (x : float64) : bool :=
  match x with
  | S754_zero s | S754_infinity s | S754_finite s _ _ => s
  | S754_nan => false
  end.

Definition is_finite (x : float64) : bool :=
  match x with S754_zero _ | S754_finite _ _ _ => true | _ => false end.

(** [math.Min] of the Go library:
<<
	case IsInf(x, -1) || IsInf(y, -1): return Inf(-1)
	case IsNaN(x) || IsNaN(y):         return NaN()
	case x == 0 && x == y:             if Signbit(x) { return x }; return y
	if x < y { return x }; return y
>> *)
Definition Min (x y : float64) : float64 :=
  if IsInf x true || IsInf y true then Inf true
  else if IsNaN x || IsNaN y then NaN
  else if eqb x zero && eqb x y then (if Signbit x then x else y)
  else if ltb x y then x else y.

(** [math.Max] of the Go library:
<<
	case IsInf(x, 1) || IsInf(y, 1): return Inf(1)
	case IsNaN(x) || IsNaN(y):       return NaN()
	case x == 0 && x == y:           if Signbit(x) { return y }; return x
	if x > y { return x }; return y
>> *)
Definition Max (x y : float64) : float64 :=
  if IsInf x false || IsInf y false then Inf false
  else if IsNaN x || IsNaN y then NaN
  else if eqb x zero && eqb x y then (if Signbit x then y else x)
  else if gtb x y then x else y.

End F64.

Definition float64 : Type := F64.float64.

(** ** The data model

    [Netdev] is the container for the stats of a single network interface;
    [Speed] is a [uint32] and [Duplex] a [uint8], kept as integers in their
    range by the code that fills them. *)

Record Netdev : Type := mkNetdev {
  Ifname : string;
  Speed : Z;
  Duplex : Z;
  Rbytes : float64;
  Rpackets : float64;
  Rerrs : float64;
  Rdrop : float64;
  Rfifo : float64;
  Rframe : float64;
  Rcompressed : float64;
  Rmulticast : float64;
  Tbytes : float64;
  Tpackets : float64;
  Terrs : float64;
  Tdrop : float64;
  Tfifo : float64;
  Tcolls : float64;
  Tcarrier : float64;
  Tcompressed : float64;
  Packets : float64;
  Raverage : float64;
  Taverage : float64;
  Saturation : float64;
  Rutil : float64;
  Tutil : float64;
  Utilization : float64;
  Uptime : float64
}.

(** The zero value [Netdev{}]. *)
Definition Netdev0 : Netdev :=
  mkNetdev EmptyString 0 0
    F64.zero F64.zero F64.zero F64.zero F64.zero F64.zero F64.zero F64.zero
    F64.zero F64.zero F64.zero F64.zero F64.zero F64.zero F64.zero F64.zero
    F64.zero F64.zero F64.zero F64.zero F64.zero F64.zero F64.zero F64.zero.

(** Assignment to one field, [n.F = v]. *)
Definition set_Ifname (v : string) (n : Netdev) : Netdev :=
  mkNetdev v (Speed n) (Duplex n) (Rbytes n) (Rpackets n) (Rerrs n)
    (Rdrop n) (Rfifo n) (Rframe n) (Rcompressed n) (Rmulticast n) (Tbytes n)
    (Tpackets n) (Terrs n) (Tdrop n) (Tfifo n) (Tcolls n) (Tcarrier n)
    (Tcompressed n) (Packets n) (Raverage n) (Taverage n) (Saturation n)
    (Rutil n) (Tutil n) (Utilization n) (Uptime n).
Definition set_Speed (v : Z) (n : Netdev) : Netdev :=
  mkNetdev (Ifname n) v (Duplex n) (Rbytes n) (Rpackets n) (Rerrs n)
    (Rdrop n) (Rfifo n) (Rframe n) (Rcompressed n) (Rmulticast n) (Tbytes n)
    (Tpackets n) (Terrs n) (Tdrop n) (Tfifo n) (Tcolls n) (Tcarrier n)
    (Tcompressed n) (Packets n) (Raverage n) (Taverage n) (Saturation n)
    (Rutil n) (Tutil n) (Utilization n) (Uptime n).
Definition set_Duplex (v : Z) (n : Netdev) : Netdev :=
  mkNetdev (Ifname n) (Speed n) v (Rbytes n) (Rpackets n) (Rerrs n)
    (Rdrop n) (Rfifo n) (Rframe n) (Rcompressed n) (Rmulticast n) (Tbytes n)
    (Tpackets n) (Terrs n) (Tdrop n) (Tfifo n) (Tcolls n) (Tcarrier n)
    (Tcompressed n) (Packets n) (Raverage n) (Taverage n) (Saturation n)
    (Rutil n) (Tutil n) (Utilization n) (Uptime n).
Definition set_Rbytes (v : float64) (n : Netdev) : Netdev :=
  mkNetdev (Ifname n) (Speed n) (Duplex n) v (Rpackets n) (Rerrs n)
    (Rdrop n) (Rfifo n) (Rframe n) (Rcompressed n) (Rmulticast n) (Tbytes n)
    (Tpackets n) (Terrs n) (Tdrop n) (Tfifo n) (Tcolls n) (Tcarrier n)
    (Tcompressed n) (Packets n) (Raverage n) (Taverage n) (Saturation n)
    (Rutil n) (Tutil n) (Utilization n) (Uptime n).
Definition set_Rpackets (v : float64) (n : Netdev) : Netdev :=
  mkNetdev (Ifname n) (Speed n) (Duplex n) (Rbytes n) v (Rerrs n) (Rdrop n)
    (Rfifo n) (Rframe n) (Rcompressed n) (Rmulticast n) (Tbytes n)
    (Tpackets n) (Terrs n) (Tdrop n) (Tfifo n) (Tcolls n) (Tcarrier n)
    (Tcompressed n) (Packets n) (Raverage n) (Taverage n) (Saturation n)
    (Rutil n) (Tutil n) (Utilization n) (Uptime n).
Definition set_Rerrs (v : float64) (n : Netdev) : Netdev :=
  mkNetdev (Ifname n) (Speed n) (Duplex n) (Rbytes n) (Rpackets n) v
    (Rdrop n) (Rfifo n) (Rframe n) (Rcompressed n) (Rmulticast n) (Tbytes n)
    (Tpackets n) (Terrs n) (Tdrop n) (Tfifo n) (Tcolls n) (Tcarrier n)
    (Tcompressed n) (Packets n) (Raverage n) (Taverage n) (Saturation n)
    (Rutil n) (Tutil n) (Utilization n) (Uptime n).
Definition set_Rdrop (v : float64) (n : Netdev) : Netdev :=
  mkNetdev (Ifname n) (Speed n) (Duplex n) (Rbytes n) (Rpackets n) (Rerrs n)
    v (Rfifo n) (Rframe n) (Rcompressed n) (Rmulticast n) (Tbytes n)
    (Tpackets n) (Terrs n) (Tdrop n) (Tfifo n) (Tcolls n) (Tcarrier n)
    (Tcompressed n) (Packets n) (Raverage n) (Taverage n) (Saturation n)
    (Rutil n) (Tutil n) (Utilization n) (Uptime n).
Definition set_Rfifo (v : float64) (n : Netdev) : Netdev :=
  mkNetdev (Ifname n) (Speed n) (Duplex n) (Rbytes n) (Rpackets n) (Rerrs n)
    (Rdrop n) v (Rframe n) (Rcompressed n) (Rmulticast n) (Tbytes n)
    (Tpackets n) (Terrs n) (Tdrop n) (Tfifo n) (Tcolls n) (Tcarrier n)
    (Tcompressed n) (Packets n) (Raverage n) (Taverage n) (Saturation n)
    (Rutil n) (Tutil n) (Utilization n) (Uptime n).
Definition set_Rframe (v : float64) (n : Netdev) : Netdev :=
  mkNetdev (Ifname n) (Speed n) (Duplex n) (Rbytes n) (Rpackets n) (Rerrs n)
    (Rdrop n) (Rfifo n) v (Rcompressed n) (Rmulticast n) (Tbytes n)
    (Tpackets n) (Terrs n) (Tdrop n) (Tfifo n) (Tcolls n) (Tcarrier n)
    (Tcompressed n) (Packets n) (Raverage n) (Taverage n) (Saturation n)
    (Rutil n) (Tutil n) (Utilization n) (Uptime n).
Definition set_Rcompressed (v : float64) (n : Netdev) : Netdev :=
  mkNetdev (Ifname n) (Speed n) (Duplex n) (Rbytes n) (Rpackets n) (Rerrs n)
    (Rdrop n) (Rfifo n) (Rframe n) v (Rmulticast n) (Tbytes n) (Tpackets n)
    (Terrs n) (Tdrop n) (Tfifo n) (Tcolls n) (Tcarrier n) (Tcompressed n)
    (Packets n) (Raverage n) (Taverage n) (Saturation n) (Rutil n) (Tutil n)
    (Utilization n) (Uptime n).
Definition set_Rmulticast (v : float64) (n : Netdev) : Netdev :=
  mkNetdev (Ifname n) (Speed n) (Duplex n) (Rbytes n) (Rpackets n) (Rerrs n)
    (Rdrop n) (Rfifo n) (Rframe n) (Rcompressed n) v (Tbytes n) (Tpackets n)
    (Terrs n) (Tdrop n) (Tfifo n) (Tcolls n) (Tcarrier n) (Tcompressed n)
    (Packets n) (Raverage n) (Taverage n) (Saturation n) (Rutil n) (Tutil n)
    (Utilization n) (Uptime n).
Definition set_Tbytes (v : float64) (n : Netdev) : Netdev :=
  mkNetdev (Ifname n) (Speed n) (Duplex n) (Rbytes n) (Rpackets n) (Rerrs n)
    (Rdrop n) (Rfifo n) (Rframe n) (Rcompressed n) (Rmulticast n) v
    (Tpackets n) (Terrs n) (Tdrop n) (Tfifo n) (Tcolls n) (Tcarrier n)
    (Tcompressed n) (Packets n) (Raverage n) (Taverage n) (Saturation n)
    (Rutil n) (Tutil n) (Utilization n) (Uptime n).
Definition set_Tpackets (v : float64) (n : Netdev) : Netdev :=
  mkNetdev (Ifname n) (Speed n) (Duplex n) (Rbytes n) (Rpackets n) (Rerrs n)
    (Rdrop n) (Rfifo n) (Rframe n) (Rcompressed n) (Rmulticast n) (Tbytes n)
    v (Terrs n) (Tdrop n) (Tfifo n) (Tcolls n) (Tcarrier n) (Tcompressed n)
    (Packets n) (Raverage n) (Taverage n) (Saturation n) (Rutil n) (Tutil n)
    (Utilization n) (Uptime n).
Definition set_Terrs (v : float64) (n : Netdev) : Netdev :=
  mkNetdev (Ifname n) (Speed n) (Duplex n) (Rbytes n) (Rpackets n) (Rerrs n)
    (Rdrop n) (Rfifo n) (Rframe n) (Rcompressed n) (Rmulticast n) (Tbytes n)
    (Tpackets n) v (Tdrop n) (Tfifo n) (Tcolls n) (Tcarrier n)
    (Tcompressed n) (Packets n) (Raverage n) (Taverage n) (Saturation n)
    (Rutil n) (Tutil n) (Utilization n) (Uptime n).
Definition set_Tdrop (v : float64) (n : Netdev) : Netdev :=
  mkNetdev (Ifname n) (Speed n) (Duplex n) (Rbytes n) (Rpackets n) (Rerrs n)
    (Rdrop n) (Rfifo n) (Rframe n) (Rcompressed n) (Rmulticast n) (Tbytes n)
    (Tpackets n) (Terrs n) v (Tfifo n) (Tcolls n) (Tcarrier n)
    (Tcompressed n) (Packets n) (Raverage n) (Taverage n) (Saturation n)
    (Rutil n) (Tutil n) (Utilization n) (Uptime n).
Definition set_Tfifo (v : float64) (n : Netdev) : Netdev :=
  mkNetdev (Ifname n) (Speed n) (Duplex n) (Rbytes n) (Rpackets n) (Rerrs n)
    (Rdrop n) (Rfifo n) (Rframe n) (Rcompressed n) (Rmulticast n) (Tbytes n)
    (Tpackets n) (Terrs n) (Tdrop n) v (Tcolls n) (Tcarrier n)
    (Tcompressed n) (Packets n) (Raverage n) (Taverage n) (Saturation n)
    (Rutil n) (Tutil n) (Utilization n) (Uptime n).
Definition set_Tcolls (v : float64) (n : Netdev) : Netdev :=
  mkNetdev (Ifname n) (Speed n) (Duplex n) (Rbytes n) (Rpackets n) (Rerrs n)
    (Rdrop n) (Rfifo n) (Rframe n) (Rcompressed n) (Rmulticast n) (Tbytes n)
    (Tpackets n) (Terrs n) (Tdrop n) (Tfifo n) v (Tcarrier n)
    (Tcompressed n) (Packets n) (Raverage n) (Taverage n) (Saturation n)
    (Rutil n) (Tutil n) (Utilization n) (Uptime n).
Definition set_Tcarrier (v : float64) (n : Netdev) : Netdev :=
  mkNetdev (Ifname n) (Speed n) (Duplex n) (Rbytes n) (Rpackets n) (Rerrs n)
    (Rdrop n) (Rfifo n) (Rframe n) (Rcompressed n) (Rmulticast n) (Tbytes n)
    (Tpackets n) (Terrs n) (Tdrop n) (Tfifo n) (Tcolls n) v (Tcompressed n)
    (Packets n) (Raverage n) (Taverage n) (Saturation n) (Rutil n) (Tutil n)
    (Utilization n) (Uptime n).
Definition set_Tcompressed (v : float64) (n : Netdev) : Netdev :=
  mkNetdev (Ifname n) (Speed n) (Duplex n) (Rbytes n) (Rpackets n) (Rerrs n)
    (Rdrop n) (Rfifo n) (Rframe n) (Rcompressed n) (Rmulticast n) (Tbytes n)
    (Tpackets n) (Terrs n) (Tdrop n) (Tfifo n) (Tcolls n) (Tcarrier n) v
    (Packets n) (Raverage n) (Taverage n) (Saturation n) (Rutil n) (Tutil n)
    (Utilization n) (Uptime n).
Definition set_Packets (v : float64) (n : Netdev) : Netdev :=
  mkNetdev (Ifname n) (Speed n) (Duplex n) (Rbytes n) (Rpackets n) (Rerrs n)
    (Rdrop n) (Rfifo n) (Rframe n) (Rcompressed n) (Rmulticast n) (Tbytes n)
    (Tpackets n) (Terrs n) (Tdrop n) (Tfifo n) (Tcolls n) (Tcarrier n)
    (Tcompressed n) v (Raverage n) (Taverage n) (Saturation n) (Rutil n)
    (Tutil n) (Utilization n) (Uptime n).
Definition set_Raverage (v : float64) (n : Netdev) : Netdev :=
  mkNetdev (Ifname n) (Speed n) (Duplex n) (Rbytes n) (Rpackets n) (Rerrs n)
    (Rdrop n) (Rfifo n) (Rframe n) (Rcompressed n) (Rmulticast n) (Tbytes n)
    (Tpackets n) (Terrs n) (Tdrop n) (Tfifo n) (Tcolls n) (Tcarrier n)
    (Tcompressed n) (Packets n) v (Taverage n) (Saturation n) (Rutil n)
    (Tutil n) (Utilization n) (Uptime n).
Definition set_Taverage (v : float64) (n : Netdev) : Netdev :=
  mkNetdev (Ifname n) (Speed n) (Duplex n) (Rbytes n) (Rpackets n) (Rerrs n)
    (Rdrop n) (Rfifo n) (Rframe n) (Rcompressed n) (Rmulticast n) (Tbytes n)
    (Tpackets n) (Terrs n) (Tdrop n) (Tfifo n) (Tcolls n) (Tcarrier n)
    (Tcompressed n) (Packets n) (Raverage n) v (Saturation n) (Rutil n)
    (Tutil n) (Utilization n) (Uptime n).
Definition set_Saturation (v : float64) (n : Netdev) : Netdev :=
  mkNetdev (Ifname n) (Speed n) (Duplex n) (Rbytes n) (Rpackets n) (Rerrs n)
    (Rdrop n) (Rfifo n) (Rframe n) (Rcompressed n) (Rmulticast n) (Tbytes n)
    (Tpackets n) (Terrs n) (Tdrop n) (Tfifo n) (Tcolls n) (Tcarrier n)
    (Tcompressed n) (Packets n) (Raverage n) (Taverage n) v (Rutil n)
    (Tutil n) (Utilization n) (Uptime n).
Definition set_Rutil (v : float64) (n : Netdev) : Netdev :=
  mkNetdev (Ifname n) (Speed n) (Duplex n) (Rbytes n) (Rpackets n) (Rerrs n)
    (Rdrop n) (Rfifo n) (Rframe n) (Rcompressed n) (Rmulticast n) (Tbytes n)
    (Tpackets n) (Terrs n) (Tdrop n) (Tfifo n) (Tcolls n) (Tcarrier n)
    (Tcompressed n) (Packets n) (Raverage n) (Taverage n) (Saturation n) v
    (Tutil n) (Utilization n) (Uptime n).
Definition set_Tutil (v : float64) (n : Netdev) : Netdev :=
  mkNetdev (Ifname n) (Speed n) (Duplex n) (Rbytes n) (Rpackets n) (Rerrs n)
    (Rdrop n) (Rfifo n) (Rframe n) (Rcompressed n) (Rmulticast n) (Tbytes n)
    (Tpackets n) (Terrs n) (Tdrop n) (Tfifo n) (Tcolls n) (Tcarrier n)
    (Tcompressed n) (Packets n) (Raverage n) (Taverage n) (Saturation n)
    (Rutil n) v (Utilization n) (Uptime n).
Definition set_Utilization (v : float64) (n : Netdev) : Netdev :=
  mkNetdev (Ifname n) (Speed n) (Duplex n) (Rbytes n) (Rpackets n) (Rerrs n)
    (Rdrop n) (Rfifo n) (Rframe n) (Rcompressed n) (Rmulticast n) (Tbytes n)
    (Tpackets n) (Terrs n) (Tdrop n) (Tfifo n) (Tcolls n) (Tcarrier n)
    (Tcompressed n) (Packets n) (Raverage n) (Taverage n) (Saturation n)
    (Rutil n) (Tutil n) v (Uptime n).
Definition set_Uptime (v : float64) (n : Netdev) : Netdev :=
  mkNetdev (Ifname n) (Speed n) (Duplex n) (Rbytes n) (Rpackets n) (Rerrs n)
    (Rdrop n) (Rfifo n) (Rframe n) (Rcompressed n) (Rmulticast n) (Tbytes n)
    (Tpackets n) (Terrs n) (Tdrop n) (Tfifo n) (Tcolls n) (Tcarrier n)
    (Tcompressed n) (Packets n) (Raverage n) (Taverage n) (Saturation n)
    (Rutil n) (Tutil n) (Utilization n) v.


(** ** Slices

    [Netdevs] is the Go slice type [[]Netdev]: [None] is the [nil] slice, of
    length 0, and [Some l] a slice that holds the elements [l]. *)

Definition Netdevs : Type := option (list Netdev).

Definition elems (s : Netdevs) : list Netdev :=
  match s with Some l => l | None => [] end.

Definition len (s : Netdevs) : nat := List.length (elems s).

(** [make([]Netdev, n)]: a slice of [n] zero values. *)
Definition make (n : nat) : list Netdev := repeat Netdev0 n.

(** [append(s, n)], which allocates when [s] is [nil]. *)
Definition append (s : Netdevs) (n : Netdev) : Netdevs :=
  Some (List.app (elems s) [n]).

(** [s[i]] and [s[i] = x]. Every index the code below uses is below the
    length of the slice it indexes (the loop of [countNetdevsUsage] runs
    under [i < len(curr)], after the test [len(curr) != len(prev)]). *)
Definition at_index (l : list Netdev) (i : nat) : Netdev := nth i l Netdev0.

Fixpoint store (l : list Netdev) (i : nat) (x : Netdev) : list Netdev :=
  match l, i with
  | [], _ => []
  | _ :: t, O => x :: t
  | h :: t, S j => h :: store t j x
  end.

(** ** The delta computation *)

Section DeltaEngine.

(** [sValue], and the constants [duplexHalf], [duplexFull] and
    [duplexUnknown], are declared in other files of the package. *)
Variable sValue : float64 -> float64 -> float64 -> float64 -> float64.
Variables duplexHalf duplexFull duplexUnknown : Z.

Definition c100 : float64 := F64.of_Z 100.
Definition c800 : float64 := F64.of_Z 800.

(** The [switch curr[i].Duplex] of the source. *)
Definition set_overall (c : Netdev) (s : Netdev) : Netdev :=
  if Duplex c =? duplexFull then
    set_Utilization (F64.Max (Rutil s) (Tutil s)) s
  else if Duplex c =? duplexHalf then
    set_Utilization
      (F64.Min (F64.div (F64.mul (F64.add (Rbytes s) (Tbytes s)) c800)
                        (F64.of_Z (Speed c))) c100) s
  else if Duplex c =? duplexUnknown then s
  else s.

(** The statements of the loop body that follow the inactivity test, on
    the element [s = stat[i]]. *)
Definition usage_entry (p c : Netdev) (ticks : float64) (s : Netdev) : Netdev :=
  let itv := F64.sub (Uptime c) (Uptime p) in
  let s := set_Ifname (Ifname c) s in
  let s := set_Rbytes (sValue (Rbytes p) (Rbytes c) itv ticks) s in
  let s := set_Tbytes (sValue (Tbytes p) (Tbytes c) itv ticks) s in
  let s := set_Rpackets (sValue (Rpackets p) (Rpackets c) itv ticks) s in
  let s := set_Tpackets (sValue (Tpackets p) (Tpackets c) itv ticks) s in
  let s := set_Rerrs (sValue (Rerrs p) (Rerrs c) itv ticks) s in
  let s := set_Terrs (sValue (Terrs p) (Terrs c) itv ticks) s in
  let s := set_Tcolls (sValue (Tcolls p) (Tcolls c) itv ticks) s in
  let s := set_Saturation (sValue (Saturation p) (Saturation c) itv ticks) s in
  let s := set_Speed (Speed c) s in
  let s := set_Duplex (Duplex c) s in
  let s :=
    if F64.gtb (Rpackets s) F64.zero
    then set_Raverage (F64.div (Rbytes s) (Rpackets s)) s
    else set_Raverage F64.zero s in
  let s :=
    if F64.gtb (Tpackets s) F64.zero
    then set_Taverage (F64.div (Tbytes s) (Tpackets s)) s
    else set_Taverage F64.zero s in
  let s := set_Packets (F64.add (Rpackets c) (Tpackets c)) s in
  if 0 <? Speed c then
    let s :=
      set_Rutil (F64.Min (F64.div (F64.mul (Rbytes s) c800) (F64.of_Z (Speed c)))
                         c100) s in
    let s :=
      set_Tutil (F64.Min (F64.div (F64.mul (Tbytes s) c800) (F64.of_Z (Speed c)))
                         c100) s in
    set_overall c s
  else
    set_Utilization F64.zero (set_Tutil F64.zero (set_Rutil F64.zero s)).

(** The test [curr[i].Rpackets+curr[i].Tpackets == 0]. *)
Definition inactive (c : Netdev) : bool :=
  F64.eqb (F64.add (Rpackets c) (Tpackets c)) F64.zero.

(** One iteration of the loop, at index [i]. *)
Definition usage_step (prev curr : list Netdev) (ticks : float64)
    (stat : list Netdev) (i : nat) : list Netdev :=
  if inactive (at_index curr i) then stat (* continue *)
  else
    store stat i
      (usage_entry (at_index prev i) (at_index curr i) ticks (at_index stat i)).

(** [for i := 0; i < len(curr); i++]: [n] iterations are left, from [i]. *)
Fixpoint usage_loop (prev curr : list Netdev) (ticks : float64)
    (n i : nat) (stat : list Netdev) : list Netdev :=
  match n with
  | O => stat
  | S n' =>
      usage_loop prev curr ticks n' (S i) (usage_step prev curr ticks stat i)
  end.

Definition countNetdevsUsage (prev curr : Netdevs) (ticks : float64) : Netdevs :=
  if negb (Nat.eqb (len curr) (len prev)) then None
  else
    Some (usage_loop (elems prev) (elems curr) ticks (len curr) 0%nat
            (make (len curr))).

(** The record that the assignments of the body add up to. *)
Definition usage_entry_fields (p c : Netdev) (ticks : float64) (s : Netdev)
    : Netdev :=
  let itv := F64.sub (Uptime c) (Uptime p) in
  let rate f := sValue (f p) (f c) itv ticks in
  let util bytes :=
    F64.Min (F64.div (F64.mul bytes c800) (F64.of_Z (Speed c))) c100 in
  let ru := if 0 <? Speed c then util (rate Rbytes) else F64.zero in
  let tu := if 0 <? Speed c then util (rate Tbytes) else F64.zero in
  mkNetdev (Ifname c) (Speed c) (Duplex c)
    (rate Rbytes) (rate Rpackets) (rate Rerrs)
    (Rdrop s) (Rfifo s) (Rframe s) (Rcompressed s) (Rmulticast s)
    (rate Tbytes) (rate Tpackets) (rate Terrs)
    (Tdrop s) (Tfifo s) (rate Tcolls) (Tcarrier s) (Tcompressed s)
    (F64.add (Rpackets c) (Tpackets c))
    (if F64.gtb (rate Rpackets) F64.zero
     then F64.div (rate Rbytes) (rate Rpackets) else F64.zero)
    (if F64.gtb (rate Tpackets) F64.zero
     then F64.div (rate Tbytes) (rate Tpackets) else F64.zero)
    (rate Saturation) ru tu
    (if 0 <? Speed c then
       if Duplex c =? duplexFull then F64.Max ru tu
       else if Duplex c =? duplexHalf then
         util (F64.add (rate Rbytes) (rate Tbytes))
       else Utilization s
     else F64.zero)
    (Uptime s).

End DeltaEngine.

(** Modelled from the spec: [sValue] is defined in another file of the
    package. The spec (4.3, step 3) gives the rate of a counter as
    [(current.value - previous.value) / itv], scaled by [ticksPerSecond]. *)
Definition sValue_spec (prev curr itv ticks : float64) : float64 :=
  F64.mul (F64.div (F64.sub curr prev) itv) ticks.

(** ** Acquisition *)

(** Go's [error] values, and the results of the calls that can fail. *)
Inductive error : Type := Err (msg : string).

Inductive result (A : Type) : Type :=
  | Ok (a : A)
  | Fail (e : error).
Arguments Ok {A} a.
Arguments Fail {A} e.

(** The seventeen values that [fmt.Sscanln] (local source) and [rows.Scan]
    (remote source) store through the pointers they are given: the name and
    the sixteen counters of one interface. *)
Record Row : Type := mkRow {
  col_Ifname : string;
  col_Rbytes : float64;
  col_Rpackets : float64;
  col_Rerrs : float64;
  col_Rdrop : float64;
  col_Rfifo : float64;
  col_Rframe : float64;
  col_Rcompressed : float64;
  col_Rmulticast : float64;
  col_Tbytes : float64;
  col_Tpackets : float64;
  col_Terrs : float64;
  col_Tdrop : float64;
  col_Tfifo : float64;
  col_Tcolls : float64;
  col_Tcarrier : float64;
  col_Tcompressed : float64
}.

(** The stores of a successful scan, in the order of the arguments. *)
Definition scan_into (r : Row) (n : Netdev) : Netdev :=
  let n := set_Ifname (col_Ifname r) n in
  let n := set_Rbytes (col_Rbytes r) n in
  let n := set_Rpackets (col_Rpackets r) n in
  let n := set_Rerrs (col_Rerrs r) n in
  let n := set_Rdrop (col_Rdrop r) n in
  let n := set_Rfifo (col_Rfifo r) n in
  let n := set_Rframe (col_Rframe r) n in
  let n := set_Rcompressed (col_Rcompressed r) n in
  let n := set_Rmulticast (col_Rmulticast r) n in
  let n := set_Tbytes (col_Tbytes r) n in
  let n := set_Tpackets (col_Tpackets r) n in
  let n := set_Terrs (col_Terrs r) n in
  let n := set_Tdrop (col_Tdrop r) n in
  let n := set_Tfifo (col_Tfifo r) n in
  let n := set_Tcolls (col_Tcolls r) n in
  let n := set_Tcarrier (col_Tcarrier r) n in
  let n := set_Tcompressed (col_Tcompressed r) n in
  n.

(** *** The filter

    [regexp.MustCompile(`docker|virbr|veth`).MatchString(name)] holds when
    some substring of [name] is one of the three words. *)

Fixpoint contains (pat s : string) : bool :=
  if prefix pat s then true
  else match s with
       | EmptyString => false
       | String _ t => contains pat t
       end.

Definition MatchString (name : string) : bool :=
  contains "docker" name || contains "virbr" name || contains "veth" name.

(** *** The local source *)

Section Local.

(** The host: [os.Open] followed by the lines that [bufio.Scanner] yields,
    the package's [uptime()], [fmt.Sscanln] on a line with the seventeen
    pointers, and the package's [GetLinkSettings]. *)
Variable os_Open : string -> result (list string).
Variable uptime : result float64.
Variable Sscanln : string -> result Row.
Variable GetLinkSettings : string -> Z * Z * option error.

(** [fmt.Errorf("%s bad content", statfile)]. *)
Definition bad_content (statfile : string) : error :=
  Err (String.append statfile " bad content").

(** [for scanner.Scan()], on the lines that are left. *)
Fixpoint local_loop (statfile : string) (up : float64) (lines : list string)
    (stat : Netdevs) : Netdevs * option error :=
  match lines with
  | [] => (stat, None)
  | line :: rest =>
      match Sscanln line with
      | Fail _ => (None, Some (bad_content statfile))
      | Ok r =>
          let n := scan_into r Netdev0 in
          if MatchString (Ifname n) then local_loop statfile up rest stat
          else
            let n :=
              set_Saturation
                (F64.add (F64.add (F64.add (F64.add (F64.add
                   (Rerrs n) (Rdrop n)) (Tdrop n)) (Tfifo n)) (Tcolls n))
                   (Tcarrier n)) n in
            let n := set_Uptime up n in
            let '(speed, duplex, _) := GetLinkSettings (Ifname n) in
            let n := set_Duplex duplex (set_Speed speed n) in
            local_loop statfile up rest (append stat n)
      end
  end.

Definition readNetdevsLocal (statfile : string) : Netdevs * option error :=
  match os_Open statfile with
  | Fail err => (None, Some err)
  | Ok lines =>
      match uptime with
      | Fail err => (None, Some err)
      | Ok up => local_loop statfile up (skipn 2 lines) None
      end
  end.

End Local.

(** *** The remote source *)

(** A connection [*postgres.DB]: its field [Local], and what the server
    answers to the three queries of the package: the uptime row, the rows
    of [pgProcNetdevQuery] (each one scanned, or failing to scan), and the
    link settings row of an interface. *)
Record DB : Type := mkDB {
  Local : bool;
  QueryRow_uptime : result float64;
  Query_netdev : result (list (result Row));
  QueryRow_link : string -> result (Z * Z)
}.

(** [for rows.Next()], on the rows that are left. *)
Fixpoint remote_loop (db : DB) (up : float64) (rows : list (result Row))
    (stat : Netdevs) : Netdevs * option error :=
  match rows with
  | [] => (stat, None)
  | row :: rest =>
      match row with
      | Fail err => (None, Some err)
      | Ok r =>
          let n := scan_into r Netdev0 in
          if MatchString (Ifname n) then remote_loop db up rest stat
          else
            let n := set_Uptime up n in
            match QueryRow_link db (Ifname n) with
            | Fail err => (None, Some err)
            | Ok (speed, duplex) =>
                let n := set_Duplex duplex (set_Speed speed n) in
                remote_loop db up rest (append stat n)
            end
      end
  end.

Definition readNetdevsRemote (db : DB) : Netdevs * option error :=
  (* the error of the uptime query is dropped: [uptime] stays 0 *)
  let up := match QueryRow_uptime db with Ok u => u | Fail _ => F64.zero end in
  match Query_netdev db with
  | Fail err => (None, Some err)
  | Ok rows => remote_loop db up rows None
  end.

(** *** Dispatch *)

Section Dispatch.

Variable os_Open : string -> result (list string).
Variable uptime : result float64.
Variable Sscanln : string -> result Row.
Variable GetLinkSettings : string -> Z * Z * option error.

Definition readNetdevs (db : DB) (schemaExists : bool) : Netdevs * option error :=
  if Local db then
    readNetdevsLocal os_Open uptime Sscanln GetLinkSettings "/proc/net/dev"
  else if schemaExists then readNetdevsRemote db
  else (Some [], None).

End Dispatch.

(** ** Vocabulary of the properties *)

(** A float that is a zero, or is positive, possibly infinite. *)
Definition nonneg (x : float64) : bool :=
  match x with
  | S754_zero _ | S754_finite false _ _ | S754_infinity false => true
  | _ => false
  end.

(** A positive finite number. *)
Definition posfin (x : float64) : bool :=
  match x with S754_finite false _ _ => true | _ => false end.

(** A float of sign [s], not NaN. *)
Definition signed (s : bool) (x : float64) : bool :=
  match x with
  | S754_zero s' | S754_finite s' _ _ | S754_infinity s' => Bool.eqb s' s
  | S754_nan => false
  end.

(** The fields that [countNetdevsUsage] fills with a rate. *)
Definition rate_fields : list (Netdev -> float64) :=
  [Rbytes; Tbytes; Rpackets; Tpackets; Rerrs; Terrs; Tcolls; Saturation].

(** [pat] occurs in [s]. *)
Definition occurs (pat s : string) : Prop :=
  exists pre post : string, s = String.append pre (String.append pat post).

(** The names that the deny-list of the spec describes. *)
Definition denied (name : string) : Prop :=
  occurs "docker" name \/ occurs "virbr" name \/ occurs "veth" name.

(** The names that pass the filter, for [List.filter]. *)
Definition retained (name : string) : bool := negb (MatchString name).

(** The interval of entry [i]: [curr[i].Uptime - prev[i].Uptime]. *)
Definition interval (prev curr : Netdevs) (i : nat) : float64 :=
  F64.sub (Uptime (at_index (elems curr) i)) (Uptime (at_index (elems prev) i)).

(** The sum that the local source stores in [Saturation]. *)
Definition six_counters (n : Netdev) : float64 :=
  F64.add (F64.add (F64.add (F64.add (F64.add
    (Rerrs n) (Rdrop n)) (Tdrop n)) (Tfifo n)) (Tcolls n)) (Tcarrier n).

(** ** Sample data *)

(** A raw sample: a name, byte and packet counters, an uptime and the
    link settings. *)
Definition sample (name : string) (rbytes rpackets tbytes tpackets up : Z)
    (speed duplex : Z) : Netdev :=
  set_Uptime (F64.of_Z up)
    (set_Duplex duplex (set_Speed speed
      (set_Tpackets (F64.of_Z tpackets) (set_Tbytes (F64.of_Z tbytes)
        (set_Rpackets (F64.of_Z rpackets) (set_Rbytes (F64.of_Z rbytes)
          (set_Ifname name Netdev0))))))).

(** The values of [duplexHalf], [duplexFull] and [duplexUnknown] that the
    spec gives (0, 1, and another value). *)
Definition ex_half : Z := 0.
Definition ex_full : Z := 1.
Definition ex_unknown : Z := 255.

Definition ex_delta : Netdevs -> Netdevs -> float64 -> Netdevs :=
  countNetdevsUsage sValue_spec ex_half ex_full ex_unknown.

(** [eth0] one second apart, as in the scenarios of the spec. *)
Definition eth0_before : Netdev := sample "eth0" 1000 10 500 5 0 1000000000 ex_full.
Definition eth0_after (speed duplex : Z) : Netdev :=
  sample "eth0" 2000 20 1500 15 1 speed duplex.

(** An interface that has seen no packet. *)
Definition eth1_idle : Netdev := sample "eth1" 0 0 0 0 1 1000000000 ex_full.

Definition ex_ticks : float64 := F64.of_Z 100.

(** A host for the local source: a file of two header lines and four
    interfaces, a scanner that reads a name, and link settings. *)
Definition ex_row (name : string) : Row :=
  mkRow name (F64.of_Z 2000) (F64.of_Z 20) (F64.of_Z 1) (F64.of_Z 2)
    F64.zero F64.zero F64.zero F64.zero
    (F64.of_Z 1500) (F64.of_Z 15) F64.zero (F64.of_Z 3) (F64.of_Z 4)
    (F64.of_Z 5) (F64.of_Z 6) F64.zero.

Definition ex_Open (statfile : string) : result (list string) :=
  if String.eqb statfile "/proc/net/dev"
  then Ok ["Inter-|   Receive"; " face |bytes"; "docker0:"; "eth0:";
           "veth1a2b3c:"; "wlan0:"]%string
  else Fail (Err "no such file").

Definition ex_uptime : result float64 := Ok (F64.of_Z 3600).

Definition ex_Sscanln (line : string) : result Row :=
  if String.eqb line "" then Fail (Err "unexpected newline")
  else Ok (ex_row line).

Definition ex_GetLinkSettings (name : string) : Z * Z * option error :=
  (1000000000, ex_full, None).

(** A server for the remote source, with and without its rows. *)
Definition ex_db : DB :=
  mkDB false (Ok (F64.of_Z 3600))
    (Ok [Ok (ex_row "docker0"); Ok (ex_row "eth0"); Ok (ex_row "virbr0-nic")])
    (fun _ => Ok (1000000000, ex_full)).

Definition ex_db_later : DB :=
  mkDB false (Ok (F64.of_Z 3601))
    (Ok [Ok (ex_row "docker0"); Ok (ex_row "eth0"); Ok (ex_row "virbr0-nic")])
    (fun _ => Ok (1000000000, ex_full)).

Definition ex_db_down : DB :=
  mkDB false (Fail (Err "connection refused"))
    (Fail (Err "connection refused"))
    (fun _ => Fail (Err "connection refused")).

(** The snapshots that these sources return. *)
Definition ex_local : Netdevs :=
  Eval vm_compute in
    fst (readNetdevsLocal ex_Open ex_uptime ex_Sscanln ex_GetLinkSettings
           "/proc/net/dev").

Definition ex_remote : Netdevs :=
  Eval vm_compute in fst (readNetdevsRemote ex_db).

Definition ex_remote_later : Netdevs :=
  Eval vm_compute in fst (readNetdevsRemote ex_db_later).

(** ** Vocabulary of the acquisition *)

(** The slice after the samples [l] are appended to [stat], one by one:
    [stat] itself, [nil] included, when there is nothing to append. *)
Definition extend (stat : Netdevs) (l : list Netdev) : Netdevs :=
  match l with
  | [] => stat
  | _ => Some (List.app (elems stat) l)
  end.

(** The scanned rows that pass the filter. *)
Definition retained_rows (rows : list Row) : list Row :=
  filter (fun r => retained (col_Ifname r)) rows.

(** The sample that the local source appends for a retained row: the
    scanned values, the sum of six counters, the uptime of the call and
    the link settings that [GetLinkSettings] returns, error or not. *)
Definition local_sample (GetLinkSettings : string -> Z * Z * option error)
    (up : float64) (r : Row) : Netdev :=
  let n := scan_into r Netdev0 in
  let n := set_Uptime up (set_Saturation (six_counters n) n) in
  let settings := fst (GetLinkSettings (col_Ifname r)) in
  set_Duplex (snd settings) (set_Speed (fst settings) n).

(** The uptime that the remote source stamps: 0 when its query fails. *)
Definition remote_uptime (db : DB) : float64 :=
  match QueryRow_uptime db with Ok u => u | Fail _ => F64.zero end.

(** The sample that the remote source appends for a retained row whose
    link settings query answers. *)
Definition remote_sample (db : DB) (r : Row) : Netdev :=
  let n := set_Uptime (remote_uptime db) (scan_into r Netdev0) in
  match QueryRow_link db (col_Ifname r) with
  | Ok (speed, duplex) => set_Duplex duplex (set_Speed speed n)
  | Fail _ => n
  end.

(** The link settings queries of the retained rows all answer. *)
Definition links_answer (db : DB) (rows : list Row) : Prop :=
  forall r, In r rows -> retained (col_Ifname r) = true ->
    exists settings, QueryRow_link db (col_Ifname r) = Ok settings.

(** ** More sample data *)

(** A file whose second interface line does not scan. *)
Definition ex_Open_bad (statfile : string) : result (list string) :=
  if String.eqb statfile "/proc/net/dev"
  then Ok ["Inter-|   Receive"; " face |bytes"; "eth0:"; ""; "wlan0:"]%string
  else Fail (Err "no such file").

(** The rows of the sample file, and of the sample server. *)
Definition ex_file_rows : list Row :=
  [ex_row "docker0:"; ex_row "eth0:"; ex_row "veth1a2b3c:"; ex_row "wlan0:"].

Definition ex_db_rows : list Row :=
  [ex_row "docker0"; ex_row "eth0"; ex_row "virbr0-nic"].

(** A host that reports no link settings for the filtered interfaces. *)
Definition ex_GetLinkSettings_picky (name : string) : Z * Z * option error :=
  if MatchString name then (0, 0, Some (Err "no such device"))
  else ex_GetLinkSettings name.

Definition ex_uptime_later : result float64 := Ok (F64.of_Z 3601).

Definition ex_local_later : Netdevs :=
  Eval vm_compute in
    fst (readNetdevsLocal ex_Open ex_uptime_later ex_Sscanln ex_GetLinkSettings
           "/proc/net/dev").

(** Servers with a row that does not scan, with a link settings query
    that fails for [wlan0], with no uptime, and with link settings for the
    retained names only. *)
Definition ex_db_bad_row : DB :=
  mkDB false (Ok (F64.of_Z 3600))
    (Ok [Ok (ex_row "eth0"); Fail (Err "scan error"); Ok (ex_row "wlan0")])
    (fun _ => Ok (1000000000, ex_full)).

Definition ex_db_bad_link : DB :=
  mkDB false (Ok (F64.of_Z 3600))
    (Ok [Ok (ex_row "docker0"); Ok (ex_row "eth0"); Ok (ex_row "wlan0")])
    (fun name => if String.eqb name "wlan0" then Fail (Err "no link")
                 else Ok (1000000000, ex_full)).

Definition ex_db_no_uptime : DB :=
  mkDB false (Fail (Err "no uptime")) (Ok (map Ok ex_db_rows))
    (fun _ => Ok (1000000000, ex_full)).

Definition ex_db_picky : DB :=
  mkDB false (Ok (F64.of_Z 3600)) (Ok (map Ok ex_db_rows))
    (fun name => if MatchString name then Fail (Err "not a device")
                 else Ok (1000000000, ex_full)).


(** * Properties *)

(** ** Indexed stores *)

Lemma store_length (l : list Netdev) (i : nat) (x : Netdev) :
  List.length (store l i x) = List.length l.
Proof.
  revert i; induction l as [|h t IH]; intros [|j]; simpl; auto.
Qed.

Lemma at_index_store_same (l : list Netdev) (i : nat) (x : Netdev) :
  (i < List.length l)%nat -> at_index (store l i x) i = x.
Proof.
  revert i; induction l as [|h t IH]; intros [|j] Hi; simpl in *; try lia; auto.
  apply IH; lia.
Qed.

Lemma at_index_store_other (l : list Netdev) (i j : nat) (x : Netdev) :
  i <> j -> at_index (store l i x) j = at_index l j.
Proof.
  revert i j; induction l as [|h t IH]; intros [|i] [|j] Hij; simpl;
    try reflexivity; try congruence.
  apply IH; congruence.
Qed.

Lemma at_index_make (n i : nat) : at_index (make n) i = Netdev0.
Proof.
  unfold at_index, make. revert i; induction n as [|n IH]; intros [|i]; simpl; auto.
Qed.

Lemma make_length (n : nat) : List.length (make n) = n.
Proof. apply repeat_length. Qed.

Lemma at_index_nth_error (l : list Netdev) (i : nat) :
  (i < List.length l)%nat -> nth_error l i = Some (at_index l i).
Proof.
  revert i; induction l as [|h t IH]; intros [|i] Hi; simpl in *; try lia; auto.
  apply IH; lia.
Qed.

(** ** Comparisons of float64, [math.Max] and [math.Min] *)

Lemma SFcompare_antisym (x y : float64) :
  SFcompare y x = option_map CompOpp (SFcompare x y).
Proof.
  assert (Hm : forall p q,
             Pos.compare_cont Eq q p = CompOpp (Pos.compare_cont Eq p q))
    by (intros p q; symmetry; apply (Pos.compare_cont_antisym p q Eq)).
  destruct x as [[|]|[|]| |[|] mx ex], y as [[|]|[|]| |[|] my ey];
    simpl; try reflexivity;
    rewrite (Z.compare_antisym ex ey); destruct (ex ?= ey); simpl;
    try reflexivity;
    rewrite (Hm mx my); destruct (Pos.compare_cont Eq mx my); reflexivity.
Qed.

Lemma SFcompare_refl (x : float64) :
  F64.IsNaN x = false -> SFcompare x x = Some Eq.
Proof.
  destruct x as [[|]|[|]| |[|] m e]; simpl; intros H; try reflexivity;
    try discriminate; rewrite Z.compare_refl;
    change (Pos.compare_cont Eq m m) with (Pos.compare m m);
    now rewrite Pos.compare_refl.
Qed.


Lemma leb_refl (x : float64) : F64.IsNaN x = false -> F64.leb x x = true.
Proof.
  intros H. unfold F64.leb, SFleb. now rewrite SFcompare_refl.
Qed.

Lemma ltb_leb (x y : float64) : F64.ltb x y = true -> F64.leb x y = true.
Proof.
  unfold F64.ltb, F64.leb, SFltb, SFleb.
  destruct (SFcompare x y) as [[| |]|]; congruence.
Qed.


Lemma leb_not_ltb (x y : float64) : F64.leb x y = true -> F64.ltb y x = false.
Proof.
  unfold F64.ltb, F64.leb, SFltb, SFleb.
  rewrite (SFcompare_antisym x y).
  destruct (SFcompare x y) as [[| |]|]; simpl; congruence.
Qed.

Lemma ltb_nan_l (y : float64) : F64.ltb F64.NaN y = false.
Proof. reflexivity. Qed.

Lemma ltb_nan_r (x : float64) : F64.ltb x F64.NaN = false.
Proof. destruct x as [[|]|[|]| |[|] m e]; reflexivity. Qed.

(** [math.Max] is NaN only on a NaN argument, and is an upper bound. *)
Lemma Max_nan (x y : float64) :
  F64.IsNaN x = false -> F64.IsNaN y = false -> F64.IsNaN (F64.Max x y) = false.
Proof.
  intros Hx Hy. unfold F64.Max. rewrite Hx, Hy.
  destruct (F64.IsInf x false || F64.IsInf y false); auto. simpl.
  destruct (F64.eqb x F64.zero && F64.eqb x y).
  - destruct (F64.Signbit x); auto.
  - destruct (F64.gtb x y); auto.
Qed.


Lemma neg_inf_leb (x : float64) :
  F64.IsNaN x = false -> F64.leb (F64.Inf true) x = true.
Proof.
  destruct x as [[|]|[|]| |[|] m e]; intros H; try discriminate H; reflexivity.
Qed.

Lemma eqb_zero_leb (x y : float64) :
  F64.eqb x F64.zero = true -> F64.eqb x y = true ->
  F64.leb x y = true /\ F64.leb y x = true.
Proof.
  destruct x as [[|]|[|]| |[|] mx ex], y as [[|]|[|]| |[|] my ey];
    intros H0 H1; try discriminate H0; try discriminate H1; auto.
Qed.




(** [math.Min] against a number [y]: never above [y], and at most [y]
    when it is a number itself. *)
Lemma Min_leb_r (x y : float64) :
  F64.IsNaN y = false -> F64.IsNaN (F64.Min x y) = false ->
  F64.leb (F64.Min x y) y = true.
Proof.
  intros Hy. unfold F64.Min. rewrite Hy, Bool.orb_false_r.
  destruct (F64.IsInf x true || F64.IsInf y true); [intros _; now apply neg_inf_leb|].
  destruct (F64.IsNaN x) eqn:Hx; [discriminate|]. intros _.
  destruct (F64.eqb x F64.zero) eqn:E0, (F64.eqb x y) eqn:E1; simpl;
    try (destruct (eqb_zero_leb x y E0 E1);
         destruct (F64.Signbit x); auto using leb_refl);
    destruct (F64.ltb x y) eqn:E2; auto using leb_refl, ltb_leb.
Qed.

Lemma Min_not_gtb_r (x y : float64) :
  F64.IsNaN y = false -> F64.gtb (F64.Min x y) y = false.
Proof.
  intros Hy. unfold F64.gtb.
  destruct (F64.IsNaN (F64.Min x y)) eqn:Hm.
  - destruct (F64.Min x y); try discriminate. apply ltb_nan_r.
  - apply leb_not_ltb, Min_leb_r; auto.
Qed.

Lemma Min_nan (x y : float64) :
  F64.IsNaN x = false -> F64.IsNaN y = false -> F64.IsNaN (F64.Min x y) = false.
Proof.
  intros Hx Hy. unfold F64.Min. rewrite Hx, Hy.
  destruct (F64.IsInf x true || F64.IsInf y true); auto. simpl.
  destruct (F64.eqb x F64.zero && F64.eqb x y).
  - destruct (F64.Signbit x); auto.
  - destruct (F64.ltb x y); auto.
Qed.

(** ** The loop of [countNetdevsUsage] *)

Section DeltaProperties.

Variable sValue : float64 -> float64 -> float64 -> float64 -> float64.
Variables duplexHalf duplexFull duplexUnknown : Z.

Let entry := usage_entry sValue duplexHalf duplexFull duplexUnknown.
Let step := usage_step sValue duplexHalf duplexFull duplexUnknown.
Let loop := usage_loop sValue duplexHalf duplexFull duplexUnknown.
Let delta := countNetdevsUsage sValue duplexHalf duplexFull duplexUnknown.

Lemma usage_step_length prev curr ticks stat i :
  List.length (step prev curr ticks stat i) = List.length stat.
Proof.
  unfold step, usage_step. destruct (inactive _); auto using store_length.
Qed.

Lemma usage_loop_length prev curr ticks n i stat :
  List.length (loop prev curr ticks n i stat) = List.length stat.
Proof.
  revert i stat; induction n as [|n IH]; intros i stat; simpl; auto.
  unfold loop in *; simpl. rewrite IH. apply usage_step_length.
Qed.

(** An iteration at [i] touches the element [i] only. *)
Lemma usage_step_at prev curr ticks stat i j :
  (j < List.length stat)%nat ->
  at_index (step prev curr ticks stat i) j =
    if Nat.eqb j i then
      if inactive (at_index curr j) then at_index stat j
      else entry (at_index prev j) (at_index curr j) ticks (at_index stat j)
    else at_index stat j.
Proof.
  intros Hj. unfold step, usage_step.
  destruct (Nat.eqb_spec j i) as [->|Hne].
  - destruct (inactive (at_index curr i)); auto.
    now rewrite at_index_store_same.
  - destruct (inactive (at_index curr i)); auto.
    rewrite at_index_store_other; auto.
Qed.

(** The [n] iterations from [i] leave at every index [j] of [i .. i+n-1]
    what the body computes from [prev[j]], [curr[j]] and [stat[j]], and
    nothing elsewhere. *)
Lemma usage_loop_at prev curr ticks n : forall i stat j,
  (j < List.length stat)%nat ->
  at_index (loop prev curr ticks n i stat) j =
    if Nat.leb i j && Nat.ltb j (i + n) then
      if inactive (at_index curr j) then at_index stat j
      else entry (at_index prev j) (at_index curr j) ticks (at_index stat j)
    else at_index stat j.
Proof.
  induction n as [|n IH]; intros i stat j Hj.
  - simpl. replace (Nat.leb i j && Nat.ltb j (i + 0)) with false; auto.
    symmetry. destruct (Nat.leb_spec i j), (Nat.ltb_spec j (i + 0)); auto; lia.
  - unfold loop; simpl. fold loop. fold step.
    rewrite IH by (rewrite usage_step_length; exact Hj).
    rewrite usage_step_at by exact Hj.
    destruct (Nat.eqb_spec j i) as [->|Hne].
    + replace (Nat.leb (S i) i && Nat.ltb i (S i + n)) with false
        by (symmetry; destruct (Nat.leb_spec (S i) i); auto; lia).
      replace (Nat.leb i i && Nat.ltb i (i + S n)) with true; auto.
      symmetry. destruct (Nat.leb_spec i i), (Nat.ltb_spec i (i + S n)); auto; lia.
    + replace (Nat.leb i j && Nat.ltb j (i + S n))
        with (Nat.leb (S i) j && Nat.ltb j (S i + n)); auto.
      destruct (Nat.leb_spec (S i) j), (Nat.leb_spec i j),
        (Nat.ltb_spec j (S i + n)), (Nat.ltb_spec j (i + S n)); auto; lia.
Qed.

(** On snapshots of one length the result is a slice of that length whose
    element [i] is zero for an inactive interface, and the body's result on
    a zero element otherwise. *)
Lemma countNetdevsUsage_at (prev curr : Netdevs) (ticks : float64) :
  len prev = len curr ->
  exists out,
    delta prev curr ticks = Some out /\
    List.length out = len curr /\
    forall i, (i < len curr)%nat ->
      at_index out i =
        if inactive (at_index (elems curr) i) then Netdev0
        else entry (at_index (elems prev) i) (at_index (elems curr) i) ticks
               Netdev0.
Proof.
  intros Hlen. unfold delta, countNetdevsUsage.
  rewrite Hlen, Nat.eqb_refl. simpl negb. cbv iota.
  eexists; split; [reflexivity|]. fold loop. split.
  - now rewrite usage_loop_length, make_length.
  - intros i Hi. rewrite usage_loop_at by (now rewrite make_length).
    rewrite at_index_make.
    replace (Nat.leb 0 i && Nat.ltb i (0 + len curr)) with true; auto.
    symmetry. destruct (Nat.ltb_spec i (0 + len curr)); simpl; auto; lia.
Qed.

(** *** The fields of an active entry *)

Lemma usage_entry_eq p c ticks s :
  entry p c ticks s = usage_entry_fields sValue duplexHalf duplexFull p c ticks s.
Proof.
  unfold entry, usage_entry, usage_entry_fields, set_overall. cbv zeta.
  set (itv := F64.sub (Uptime c) (Uptime p)).
  set (rp := sValue (Rpackets p) (Rpackets c) itv ticks).
  set (tp := sValue (Tpackets p) (Tpackets c) itv ticks).
  change (F64.gtb (Rpackets _) F64.zero) with (F64.gtb rp F64.zero).
  destruct (F64.gtb rp F64.zero);
    change (F64.gtb (Tpackets _) F64.zero) with (F64.gtb tp F64.zero);
    destruct (F64.gtb tp F64.zero);
    destruct (0 <? Speed c); try reflexivity;
    destruct (Duplex c =? duplexFull); try reflexivity;
    destruct (Duplex c =? duplexHalf); try reflexivity;
    destruct (Duplex c =? duplexUnknown); reflexivity.
Qed.

(** The output entry of an interface, by the inactivity test. *)
Lemma delta_inactive prev curr ticks i :
  len prev = len curr -> (i < len curr)%nat ->
  inactive (at_index (elems curr) i) = true ->
  nth_error (elems (delta prev curr ticks)) i = Some Netdev0.
Proof.
  intros Hlen Hi Hin.
  destruct (countNetdevsUsage_at prev curr ticks Hlen) as (out & -> & Hl & Hat).
  simpl. rewrite at_index_nth_error by lia. now rewrite Hat, Hin.
Qed.

Lemma delta_active prev curr ticks i :
  len prev = len curr -> (i < len curr)%nat ->
  inactive (at_index (elems curr) i) = false ->
  nth_error (elems (delta prev curr ticks)) i =
    Some (usage_entry_fields sValue duplexHalf duplexFull
            (at_index (elems prev) i) (at_index (elems curr) i) ticks
            Netdev0).
Proof.
  intros Hlen Hi Hin.
  destruct (countNetdevsUsage_at prev curr ticks Hlen) as (out & -> & Hl & Hat).
  simpl. rewrite at_index_nth_error by lia.
  now rewrite Hat, Hin, usage_entry_eq.
Qed.

Lemma delta_length prev curr ticks :
  len prev = len curr -> len (delta prev curr ticks) = len curr.
Proof.
  intros Hlen.
  destruct (countNetdevsUsage_at prev curr ticks Hlen) as (out & -> & Hl & _).
  exact Hl.
Qed.

(** ** Snapshots of different lengths *)

(** C1 (amended). When the two snapshots differ in length,
    [countNetdevsUsage] returns the [nil] slice: a result of length 0 and
    no error value, as its result type is [Netdevs] alone. *)
Theorem countNetdevsUsage_len_mismatch prev curr ticks :
  len prev <> len curr ->
  countNetdevsUsage sValue duplexHalf duplexFull duplexUnknown prev curr ticks
    = None /\
  len (countNetdevsUsage sValue duplexHalf duplexFull duplexUnknown prev curr
         ticks) = 0%nat.
Proof.
  intros Hne. unfold delta, countNetdevsUsage.
  destruct (Nat.eqb_spec (len curr) (len prev)) as [E|_]; [congruence|].
  now split.
Qed.

(** ** Inactive interfaces *)

(** C2 (amended). When the received and transmitted packet counters of
    [curr[i]] add up to zero, the output keeps an entry at index [i], so
    that the output has the length of the inputs, and this entry is the
    zero value in every field: its name is the empty string. *)
Theorem inactive_entry_is_zero prev curr ticks i :
  len prev = len curr -> (i < len curr)%nat ->
  F64.eqb (F64.add (Rpackets (at_index (elems curr) i))
                   (Tpackets (at_index (elems curr) i))) F64.zero = true ->
  len (countNetdevsUsage sValue duplexHalf duplexFull duplexUnknown prev curr
         ticks) = len curr /\
  nth_error
    (elems (countNetdevsUsage sValue duplexHalf duplexFull duplexUnknown
              prev curr ticks)) i = Some Netdev0 /\
  Ifname Netdev0 = EmptyString.
Proof.
  intros Hlen Hi Hin. split; [now apply delta_length|].
  split; [now apply delta_inactive|reflexivity].
Qed.

(** ** Utilization *)

(** C4. An active entry whose current link speed is 0 has its three
    utilization fields equal to 0, whatever the duplex mode and the byte
    rates are. *)
Theorem no_speed_no_utilization prev curr ticks i :
  len prev = len curr -> (i < len curr)%nat ->
  inactive (at_index (elems curr) i) = false ->
  Speed (at_index (elems curr) i) = 0 ->
  exists o,
    nth_error
      (elems (countNetdevsUsage sValue duplexHalf duplexFull duplexUnknown
                prev curr ticks)) i = Some o /\
    Rutil o = F64.zero /\ Tutil o = F64.zero /\ Utilization o = F64.zero.
Proof.
  intros Hlen Hi Hact Hs. eexists. split; [now apply delta_active|].
  unfold usage_entry_fields; simpl. rewrite Hs. simpl. auto.
Qed.

End DeltaProperties.

(** ** Signs of sums, quotients and products *)

Lemma nonneg_geb (x : float64) : nonneg x = true -> F64.geb x F64.zero = true.
Proof.
  destruct x as [[|]|[|]| |[|] m e]; intros H; try discriminate H; reflexivity.
Qed.

Lemma gtb_zero_posfin (x : float64) :
  F64.gtb x F64.zero = true -> F64.is_finite x = true -> posfin x = true.
Proof.
  destruct x as [[|]|[|]| |[|] m e]; intros H1 H2;
    try discriminate H1; try discriminate H2; reflexivity.
Qed.

(** Rounding keeps the sign it is given: shifting a non-negative mantissa
    to the right, then rounding it, leaves it non-negative. *)
Lemma shr_1_nonneg (mrs : shr_record) : 0 <= shr_m mrs -> 0 <= shr_m (shr_1 mrs).
Proof.
  destruct mrs as [m r s]; simpl.
  destruct m as [|[p|p|]|p]; simpl; intros H; lia.
Qed.

Lemma iter_pos_nonneg (p : positive) : forall mrs,
  0 <= shr_m mrs -> 0 <= shr_m (iter_pos shr_1 p mrs).
Proof.
  induction p as [p IH|p IH|]; intros mrs H; simpl.
  - apply IH, IH, shr_1_nonneg, H.
  - apply IH, IH, H.
  - apply shr_1_nonneg, H.
Qed.

Lemma shr_fexp_nonneg (m e : Z) (l : location) :
  0 <= m -> 0 <= shr_m (fst (shr_fexp F64.prec F64.emax m e l)).
Proof.
  intros Hm. unfold shr_fexp, shr.
  assert (H0 : 0 <= shr_m (shr_record_of_loc m l))
    by (destruct l as [|[| |]]; exact Hm).
  destruct (fexp F64.prec F64.emax (Zdigits2 m + e) - e); simpl; auto.
  now apply iter_pos_nonneg.
Qed.

Lemma round_nearest_even_nonneg (m : Z) (l : location) :
  0 <= m -> 0 <= round_nearest_even m l.
Proof.
  intros Hm. destruct l as [|[| |]]; simpl; try lia.
  destruct (Z.even m); lia.
Qed.

Lemma binary_round_aux_signed (s : bool) (m e : Z) (l : location) :
  0 <= m -> signed s (binary_round_aux F64.prec F64.emax s m e l) = true.
Proof.
  intros Hm. unfold binary_round_aux.
  generalize (shr_fexp_nonneg m e l Hm).
  destruct (shr_fexp F64.prec F64.emax m e l) as [mrs' e']. simpl fst. intros H1.
  generalize (shr_fexp_nonneg _ e' loc_Exact
                (round_nearest_even_nonneg _ (loc_of_shr_record mrs') H1)).
  destruct (shr_fexp F64.prec F64.emax _ e' loc_Exact) as [mrs'' e''].
  simpl fst. intros H2.
  destruct (shr_m mrs'') as [|q|q]; simpl.
  - apply Bool.eqb_reflx.
  - match goal with |- context [if ?b then _ else _] => destruct b end;
      simpl; apply Bool.eqb_reflx.
  - lia.
Qed.

Lemma binary_round_signed (s : bool) (m : positive) (e : Z) :
  signed s (binary_round F64.prec F64.emax s m e) = true.
Proof.
  unfold binary_round.
  destruct (shl_align m e _) as [mz ez].
  apply binary_round_aux_signed. lia.
Qed.

Lemma signed_false_nonneg (x : float64) : signed false x = true -> nonneg x = true.
Proof. destruct x as [[|]|[|]| |[|] m e]; simpl; congruence. Qed.

Lemma mul_nonneg (x y : float64) :
  nonneg x = true -> posfin y = true -> nonneg (F64.mul x y) = true.
Proof.
  destruct x as [[|]|[|]| |[|] mx ex], y as [[|]|[|]| |[|] my ey];
    intros Hx Hy; try discriminate Hx; try discriminate Hy; try reflexivity.
  apply signed_false_nonneg.
  apply (binary_round_aux_signed false). lia.
Qed.

Lemma div_core_nonneg (m1 m2 : positive) (e1 e2 : Z) :
  0 <= fst (fst (SFdiv_core_binary F64.prec F64.emax (Zpos m1) e1 (Zpos m2) e2)).
Proof.
  unfold SFdiv_core_binary.
  set (s := e1 - e2 - _).
  set (m' := match s with Z0 => Zpos m1 | Zpos _ => Z.shiftl (Zpos m1) s
             | Zneg _ => 0 end).
  assert (Hm : 0 <= m').
  { unfold m'. destruct s; try lia. apply Z.shiftl_nonneg. lia. }
  generalize (Z.div_pos m' (Zpos m2) Hm ltac:(lia)). unfold Z.div.
  destruct (Z.div_eucl m' (Zpos m2)) as [q r]. simpl. auto.
Qed.

Lemma div_nonneg (x y : float64) :
  nonneg x = true -> posfin y = true -> nonneg (F64.div x y) = true.
Proof.
  destruct x as [[|]|[|]| |[|] mx ex], y as [[|]|[|]| |[|] my ey];
    intros Hx Hy; try discriminate Hx; try discriminate Hy; try reflexivity.
  apply signed_false_nonneg.
  unfold F64.div, SFdiv.
  generalize (div_core_nonneg mx my ex ey).
  destruct (SFdiv_core_binary F64.prec F64.emax (Zpos mx) ex (Zpos my) ey)
    as [[mz ez] lz].
  simpl. intros H. now apply (binary_round_aux_signed false).
Qed.

(** The mantissa of a binary64 value has at most 53 digits, and exactly 53
    above the least exponent. *)
Lemma digits2_pos_bounds (m : positive) :
  2 ^ (Zpos (digits2_pos m) - 1) <= Zpos m < 2 ^ Zpos (digits2_pos m).
Proof.
  induction m as [p IH|p IH|]; simpl digits2_pos;
    rewrite ?Pos2Z.inj_succ; try (simpl; lia);
    replace (Z.succ (Zpos (digits2_pos p)) - 1) with (Zpos (digits2_pos p)) by lia;
    rewrite Z.pow_succ_r by lia;
    replace (2 ^ Zpos (digits2_pos p))
      with (2 * 2 ^ (Zpos (digits2_pos p) - 1)) in *
      by (rewrite <- Z.pow_succ_r by lia; f_equal; lia);
    lia.
Qed.

Lemma bounded_mantissa (m : positive) (e : Z) :
  bounded F64.prec F64.emax m e = true ->
  Zpos m < 2 ^ 53 /\ -1074 <= e /\ (-1074 < e -> 2 ^ 52 <= Zpos m).
Proof.
  unfold bounded, canonical_mantissa, fexp, emin, F64.prec, F64.emax.
  intros H. apply andb_prop in H as [H _]. apply Z.eqb_eq in H.
  pose proof (digits2_pos_bounds m) as [Hlo Hhi].
  set (d := Zpos (digits2_pos m)) in *.
  split; [|split].
  - apply Z.lt_le_trans with (1 := Hhi). apply Z.pow_le_mono_r; lia.
  - lia.
  - intros He. replace d with 53 in Hlo by lia. exact Hlo.
Qed.

Lemma shl_align_fst (m : positive) (e e' : Z) :
  e' <= e -> Zpos (fst (shl_align m e e')) = Zpos m * 2 ^ (e - e').
Proof.
  intros He. unfold shl_align.
  destruct (e' - e) as [|d|d] eqn:E; try lia.
  - replace (e - e') with 0 by lia. simpl fst. lia.
  - simpl fst. replace (e - e') with (Zpos d) by lia.
    change (Pos.iter xO m d) with (shift_pos d m).
    rewrite shift_pos_correct, Z.pow_pos_fold. lia.
Qed.

(** The order of [SFcompare] on two positive binary64 values is the order
    of their mantissas once they are aligned on the smaller exponent. *)
Lemma aligned_le (m1 m2 : positive) (e1 e2 ez : Z) :
  bounded F64.prec F64.emax m1 e1 = true ->
  bounded F64.prec F64.emax m2 e2 = true ->
  ez = Z.min e1 e2 \/ ez = Z.min e2 e1 ->
  e1 < e2 \/ (e1 = e2 /\ (m1 <= m2)%positive) ->
  Zpos (fst (shl_align m1 e1 ez)) <= Zpos (fst (shl_align m2 e2 ez)).
Proof.
  intros B1 B2 Hz Hle.
  rewrite !shl_align_fst by lia.
  apply bounded_mantissa in B1 as (H1 & He1 & _).
  apply bounded_mantissa in B2 as (_ & _ & H2).
  destruct Hle as [Hlt|[-> Hm]].
  - replace ez with e1 by lia. rewrite Z.sub_diag, Z.mul_1_r.
    specialize (H2 ltac:(lia)).
    assert (2 ^ 1 <= 2 ^ (e2 - e1)) by (apply Z.pow_le_mono_r; lia).
    change (2 ^ 53) with (2 ^ 52 * 2 ^ 1) in H1. nia.
  - replace ez with e2 by lia. rewrite Z.sub_diag. lia.
Qed.

Lemma sub_nonneg (c p : float64) :
  F64.valid c = true -> F64.valid p = true ->
  F64.is_finite c = true -> F64.is_finite p = true ->
  F64.geb c p = true -> nonneg (F64.sub c p) = true.
Proof.
  destruct c as [sc|sc| |sc mc ec], p as [sp|sp| |sp mp ep];
    intros Vc Vp Fc Fp Hge; try discriminate Fc; try discriminate Fp.
  - destruct sc, sp; reflexivity.
  - destruct sp; [reflexivity | discriminate Hge].
  - destruct sc; [discriminate Hge | reflexivity].
  - unfold F64.valid, valid_binary in Vc, Vp.
    unfold F64.sub, SFsub.
    set (a := Zpos (fst (shl_align mc ec (Z.min ec ep)))).
    set (b := Zpos (fst (shl_align mp ep (Z.min ec ep)))).
    assert (Hd : 0 <= cond_Zopp sc a - cond_Zopp sp b).
    { unfold F64.geb, F64.leb, SFleb, SFcompare in Hge.
      destruct sc, sp; simpl cond_Zopp; try discriminate Hge; try lia.
      - (* both negative: p <= c when |c| <= |p| *)
        assert (a <= b); [|lia].
        apply aligned_le; auto.
        destruct (Z.compare_spec ep ec) as [E|E|E]; try discriminate Hge.
        + right. split; [congruence|].
          rewrite Pos.compare_cont_spec in Hge. simpl in Hge.
          destruct (Pos.compare_spec mp mc); try discriminate Hge; lia.
        + left. exact E.
      - (* both positive: p <= c *)
        assert (b <= a); [|lia].
        apply aligned_le; auto.
        destruct (Z.compare_spec ep ec) as [E|E|E]; try discriminate Hge.
        + right. split; [congruence|].
          rewrite Pos.compare_cont_spec in Hge. simpl in Hge.
          destruct (Pos.compare_spec mp mc); try discriminate Hge; lia.
        + left. exact E. }
    apply signed_false_nonneg. unfold binary_normalize.
    destruct (cond_Zopp sc a - cond_Zopp sp b) as [|d|d]; try lia.
    + reflexivity.
    + apply binary_round_signed.
Qed.

Lemma sValue_spec_nonneg (prev curr itv ticks : float64) :
  F64.valid prev = true -> F64.valid curr = true ->
  F64.is_finite prev = true -> F64.is_finite curr = true ->
  F64.gtb itv F64.zero = true -> F64.is_finite itv = true ->
  F64.gtb ticks F64.zero = true -> F64.is_finite ticks = true ->
  F64.geb curr prev = true ->
  F64.geb (sValue_spec prev curr itv ticks) F64.zero = true.
Proof.
  intros Vp Vc Fp Fc Hi Fi Ht Ft Hge.
  apply nonneg_geb. unfold sValue_spec.
  apply mul_nonneg; [|now apply gtb_zero_posfin].
  apply div_nonneg; [|now apply gtb_zero_posfin].
  now apply sub_nonneg.
Qed.


Section Rates.

Variables duplexHalf duplexFull duplexUnknown : Z.

(** C3. With [sValue] as the spec gives it, on two snapshots of one length
    and at an active entry [i] whose interval
    [itv = curr[i].Uptime - prev[i].Uptime] is positive, each rate field
    (bytes, packets, errors, transmit collisions, saturation) is
    [(current - previous) / itv * ticks] in float64 arithmetic; it is
    [>= 0] when the current counter is [>=] the previous one, for finite
    counters, a finite interval and a positive finite [ticks]. *)
Theorem rate_fields_of_active_entry (prev curr : Netdevs) (ticks : float64)
    (i : nat) :
  let p := at_index (elems prev) i in
  let c := at_index (elems curr) i in
  let itv := F64.sub (Uptime c) (Uptime p) in
  len prev = len curr -> (i < len curr)%nat ->
  inactive c = false ->
  F64.gtb itv F64.zero = true ->
  exists o,
    nth_error
      (elems (countNetdevsUsage sValue_spec duplexHalf duplexFull
                duplexUnknown prev curr ticks)) i = Some o /\
    forall f, In f rate_fields ->
      f o = F64.mul (F64.div (F64.sub (f c) (f p)) itv) ticks /\
      (F64.valid (f p) = true -> F64.valid (f c) = true ->
       F64.is_finite (f p) = true -> F64.is_finite (f c) = true ->
       F64.is_finite itv = true ->
       F64.gtb ticks F64.zero = true -> F64.is_finite ticks = true ->
       F64.geb (f c) (f p) = true ->
       F64.geb (f o) F64.zero = true).
Proof.
  intros p c itv Hlen Hi Hact Hitv. eexists. split; [now apply delta_active|].
  fold p c. intros f Hf.
  assert (E : f (usage_entry_fields sValue_spec duplexHalf duplexFull
                   p c ticks Netdev0) =
              sValue_spec (f p) (f c) itv ticks).
  { simpl in Hf.
    repeat (destruct Hf as [<-|Hf]; [reflexivity|]). contradiction. }
  rewrite E. split; [reflexivity|].
  intros. now apply sValue_spec_nonneg.
Qed.

End Rates.

(** ** The filter *)

Lemma prefix_append (p s : string) :
  prefix p s = true <-> exists t, s = String.append p t.
Proof.
  revert s; induction p as [|a p IH]; intros [|b s]; simpl.
  - split; [intros _; now exists ""%string | reflexivity].
  - split; [intros _; now exists (String b s) | reflexivity].
  - split; [discriminate | intros [t Ht]; discriminate Ht].
  - destruct (ascii_dec a b) as [->|Hne].
    + rewrite IH. split; intros [t Ht]; exists t; congruence.
    + split; [discriminate | intros [t Ht]; congruence].
Qed.

Lemma contains_cons (pat : string) (a : ascii) (s : string) :
  contains pat (String a s) =
    if prefix pat (String a s) then true else contains pat s.
Proof. reflexivity. Qed.

Lemma contains_empty (pat : string) :
  contains pat "" = if prefix pat "" then true else false.
Proof. reflexivity. Qed.

Lemma contains_occurs (pat s : string) : contains pat s = true <-> occurs pat s.
Proof.
  induction s as [|a s IH].
  - rewrite contains_empty. destruct (prefix pat "") eqn:E.
    + split; [intros _|reflexivity].
      apply prefix_append in E as [t Ht]. now exists ""%string, t.
    + split; [discriminate|]. intros (pre & post & H).
      destruct pre; [|discriminate H]. simpl in H.
      assert (prefix pat "" = true) by (apply prefix_append; now exists post).
      congruence.
  - rewrite contains_cons. destruct (prefix pat (String a s)) eqn:E.
    + split; [intros _|reflexivity].
      apply prefix_append in E as [t Ht]. now exists ""%string, t.
    + rewrite IH. split.
      * intros (pre & post & H). exists (String a pre), post. simpl. now f_equal.
      * intros (pre & post & H). destruct pre as [|b pre]; simpl in H.
        -- assert (prefix pat (String a s) = true)
             by (apply prefix_append; now exists post).
           congruence.
        -- exists pre, post. congruence.
Qed.

Lemma MatchString_denied (name : string) :
  MatchString name = true <-> denied name.
Proof.
  unfold MatchString, denied.
  rewrite !Bool.orb_true_iff, !contains_occurs. tauto.
Qed.

Lemma retained_not_denied (name : string) :
  retained name = true <-> ~ denied name.
Proof.
  unfold retained. rewrite <- MatchString_denied.
  destruct (MatchString name); simpl; split; congruence.
Qed.

Lemma scan_into_Ifname (r : Row) (n : Netdev) :
  Ifname (scan_into r n) = col_Ifname r.
Proof. reflexivity. Qed.

Lemma scan_into_Saturation (r : Row) (n : Netdev) :
  Saturation (scan_into r n) = Saturation n.
Proof. reflexivity. Qed.

Lemma elems_append (s : Netdevs) (n : Netdev) :
  elems (append s n) = List.app (elems s) [n].
Proof. reflexivity. Qed.

(** *** The local source keeps the retained names, in order *)

Section LocalProperties.

Variable os_Open : string -> result (list string).
Variable uptime : result float64.
Variable Sscanln : string -> result Row.
Variable GetLinkSettings : string -> Z * Z * option error.

Let scanned (lines : list string) (rows : list Row) : Prop :=
  Forall2 (fun line r => Sscanln line = Ok r) lines rows.

Lemma local_loop_names statfile up : forall lines stat0 stat,
  local_loop Sscanln GetLinkSettings statfile up lines stat0 = (stat, None) ->
  exists rows,
    scanned lines rows /\
    map Ifname (elems stat) =
      List.app (map Ifname (elems stat0))
               (filter retained (map col_Ifname rows)).
Proof.
  induction lines as [|line rest IH]; intros stat0 stat H;
    cbn [local_loop] in H.
  - exists []. split; [constructor|]. inversion H; subst.
    simpl. now rewrite app_nil_r.
  - destruct (Sscanln line) as [r|e] eqn:Hscan; [|discriminate H].
    rewrite scan_into_Ifname in H. unfold retained.
    destruct (MatchString (col_Ifname r)) eqn:Hm.
    + destruct (IH _ _ H) as (rows & Hrows & Hnames).
      exists (r :: rows). split; [now constructor|].
      simpl. now rewrite Hm.
    + change (GetLinkSettings (Ifname _))
        with (GetLinkSettings (col_Ifname r)) in H.
      destruct (GetLinkSettings (col_Ifname r)) as [[speed duplex] e].
      destruct (IH _ _ H) as (rows & Hrows & Hnames).
      exists (r :: rows). split; [now constructor|].
      simpl. rewrite Hm. simpl. rewrite Hnames, elems_append, map_app.
      rewrite <- app_assoc. reflexivity.
Qed.

Lemma readNetdevsLocal_names statfile stat :
  readNetdevsLocal os_Open uptime Sscanln GetLinkSettings statfile
    = (stat, None) ->
  exists lines rows,
    os_Open statfile = Ok lines /\
    scanned (skipn 2 lines) rows /\
    map Ifname (elems stat) = filter retained (map col_Ifname rows).
Proof.
  unfold readNetdevsLocal. intros H.
  destruct (os_Open statfile) as [lines|e]; [|discriminate H].
  destruct uptime as [up|e]; [|discriminate H].
  destruct (local_loop_names _ _ _ _ _ H) as (rows & Hrows & Hnames).
  exists lines, rows. auto.
Qed.

End LocalProperties.

(** *** The remote source does the same on the rows of the query *)

Lemma remote_loop_names db up : forall rows stat0 stat,
  remote_loop db up rows stat0 = (stat, None) ->
  exists rs,
    rows = map Ok rs /\
    map Ifname (elems stat) =
      List.app (map Ifname (elems stat0))
               (filter retained (map col_Ifname rs)).
Proof.
  induction rows as [|row rest IH]; intros stat0 stat H;
    cbn [remote_loop] in H.
  - exists []. split; [reflexivity|]. inversion H; subst.
    simpl. now rewrite app_nil_r.
  - destruct row as [r|e]; [|discriminate H].
    rewrite scan_into_Ifname in H. unfold retained.
    destruct (MatchString (col_Ifname r)) eqn:Hm.
    + destruct (IH _ _ H) as (rs & -> & Hnames).
      exists (r :: rs). split; [reflexivity|]. simpl. now rewrite Hm.
    + change (QueryRow_link db (Ifname _))
        with (QueryRow_link db (col_Ifname r)) in H.
      destruct (QueryRow_link db (col_Ifname r)) as [[speed duplex]|e];
        [|discriminate H].
      destruct (IH _ _ H) as (rs & -> & Hnames).
      exists (r :: rs). split; [reflexivity|].
      simpl. rewrite Hm. simpl. rewrite Hnames, elems_append, map_app.
      rewrite <- app_assoc. reflexivity.
Qed.

Lemma readNetdevsRemote_names db stat :
  readNetdevsRemote db = (stat, None) ->
  exists rs,
    Query_netdev db = Ok (map Ok rs) /\
    map Ifname (elems stat) = filter retained (map col_Ifname rs).
Proof.
  unfold readNetdevsRemote. intros H.
  destruct (Query_netdev db) as [rows|e]; [|discriminate H].
  destruct (remote_loop_names _ _ _ _ _ H) as (rs & -> & Hnames).
  exists rs. auto.
Qed.



Section AcquisitionProperties.

Variable os_Open : string -> result (list string).
Variable uptime : result float64.
Variable Sscanln : string -> result Row.
Variable GetLinkSettings : string -> Z * Z * option error.


(** C8. In a snapshot that the local or the remote source returns, the
    names are those of the scanned interfaces that the filter retains, in
    their order: no name of the snapshot contains [docker], [virbr] or
    [veth], and every scanned interface whose name contains none of them
    is in the snapshot. [docker0], [veth1a2b3c] and [virbr0-nic] are
    excluded; [eth0], [wlan0] and [enp3s0] are retained. *)
Theorem filter_excludes_virtual_interfaces :
  (forall name, MatchString name = true <-> denied name) /\
  (forall statfile stat,
     readNetdevsLocal os_Open uptime Sscanln GetLinkSettings statfile
       = (stat, None) ->
     exists lines rows,
       os_Open statfile = Ok lines /\
       Forall2 (fun line r => Sscanln line = Ok r) (skipn 2 lines) rows /\
       map Ifname (elems stat) = filter retained (map col_Ifname rows) /\
       (forall n, In n (elems stat) -> ~ denied (Ifname n)) /\
       (forall r, In r rows -> ~ denied (col_Ifname r) ->
          exists n, In n (elems stat) /\ Ifname n = col_Ifname r)) /\
  (forall db stat,
     readNetdevsRemote db = (stat, None) ->
     exists rows,
       Query_netdev db = Ok (map Ok rows) /\
       map Ifname (elems stat) = filter retained (map col_Ifname rows) /\
       (forall n, In n (elems stat) -> ~ denied (Ifname n)) /\
       (forall r, In r rows -> ~ denied (col_Ifname r) ->
          exists n, In n (elems stat) /\ Ifname n = col_Ifname r)) /\
  (MatchString "docker0" = true /\ MatchString "veth1a2b3c" = true /\
   MatchString "virbr0-nic" = true /\ MatchString "eth0" = false /\
   MatchString "wlan0" = false /\ MatchString "enp3s0" = false).
Proof.
  assert (Hnames : forall (stat : Netdevs) (rows : list Row),
    map Ifname (elems stat) = filter retained (map col_Ifname rows) ->
    (forall n, In n (elems stat) -> ~ denied (Ifname n)) /\
    (forall r, In r rows -> ~ denied (col_Ifname r) ->
       exists n, In n (elems stat) /\ Ifname n = col_Ifname r)).
  { intros stat rows E. split.
    - intros n Hn. apply retained_not_denied.
      assert (Hin : In (Ifname n) (map Ifname (elems stat)))
        by now apply in_map.
      rewrite E in Hin. now apply filter_In in Hin.
    - intros r Hr Hd.
      assert (Hin : In (col_Ifname r) (map Ifname (elems stat))).
      { rewrite E. apply filter_In. split; [now apply in_map|].
        now apply retained_not_denied. }
      apply in_map_iff in Hin as (n & Hn & Hin). now exists n. }
  split; [exact MatchString_denied|]. split; [|split].
  - intros statfile stat H.
    destruct (readNetdevsLocal_names _ _ _ _ _ _ H) as (lines & rows & Ho & Hs & E).
    exists lines, rows. destruct (Hnames _ _ E). auto.
  - intros db stat H.
    destruct (readNetdevsRemote_names _ _ H) as (rows & Hq & E).
    exists rows. destruct (Hnames _ _ E). auto.
  - repeat split; reflexivity.
Qed.

(** C9. On a target that is not local and whose schema is not confirmed,
    [readNetdevs] returns the empty snapshot and no error; when the query
    of the counters fails, a remote acquisition returns that error, with
    no snapshot. *)
Theorem schema_absent_is_empty_not_error (db : DB) :
  Local db = false ->
  readNetdevs os_Open uptime Sscanln GetLinkSettings db false
    = (Some [], None) /\
  (forall e, Query_netdev db = Fail e ->
     readNetdevs os_Open uptime Sscanln GetLinkSettings db true
       = (None, Some e) /\
     (None, Some e) <> (Some (@nil Netdev), @None error)).
Proof.
  intros HL. unfold readNetdevs. rewrite HL. split; [reflexivity|].
  intros e He. unfold readNetdevsRemote. rewrite He.
  split; [reflexivity|discriminate].
Qed.


End AcquisitionProperties.

(** ** The claims on sample data *)

Lemma ex_duplex_distinct :
  ex_half <> ex_full /\ ex_unknown <> ex_full /\ ex_unknown <> ex_half.
Proof. repeat split; discriminate. Defined.

(** Snapshots of 3 and of 4 interfaces: the result is [nil], of the length
    of the delta of two empty snapshots, and no error is reported. *)
Lemma len_mismatch_counterexample :
  let prev := Some [eth0_before; eth1_idle; eth1_idle] in
  let curr := Some [eth0_after 1000000000 ex_full; eth1_idle; eth1_idle;
                    eth1_idle] in
  len prev = 3%nat /\ len curr = 4%nat /\
  ex_delta prev curr ex_ticks = None /\
  len (ex_delta prev curr ex_ticks)
    = len (ex_delta (Some []) (Some []) ex_ticks).
Proof. repeat split. Qed.

Lemma countNetdevsUsage_len_mismatch_witness :
  let prev := Some [eth0_before; eth1_idle; eth1_idle] in
  let curr := Some [eth0_after 1000000000 ex_full; eth1_idle; eth1_idle;
                    eth1_idle] in
  len prev <> len curr /\
  ex_delta prev curr ex_ticks = None /\
  len (ex_delta prev curr ex_ticks) = 0%nat.
Proof.
  intros prev curr.
  assert (H : len prev <> len curr) by (simpl; discriminate).
  split; [exact H|].
  exact (countNetdevsUsage_len_mismatch sValue_spec ex_half ex_full
           ex_unknown prev curr ex_ticks H).
Defined.

(** An interface without packets: the entry is there, and its name is
    empty, not [eth1]. *)
Lemma inactive_entry_name_counterexample :
  let prev := Some [eth0_before; eth1_idle] in
  let curr := Some [eth0_after 1000000000 ex_full; eth1_idle] in
  F64.eqb (F64.add (Rpackets eth1_idle) (Tpackets eth1_idle)) F64.zero = true /\
  nth_error (elems (ex_delta prev curr ex_ticks)) 1
    <> Some (set_Ifname (Ifname eth1_idle) Netdev0) /\
  (forall o, nth_error (elems (ex_delta prev curr ex_ticks)) 1 = Some o ->
     Ifname o <> Ifname eth1_idle).
Proof.
  split; [reflexivity|]. split.
  - vm_compute. discriminate.
  - vm_compute. intros o H. injection H as <-. discriminate.
Qed.

Lemma inactive_entry_is_zero_witness :
  let prev := Some [eth0_before; eth1_idle] in
  let curr := Some [eth0_after 1000000000 ex_full; eth1_idle] in
  len (ex_delta prev curr ex_ticks) = len curr /\
  nth_error (elems (ex_delta prev curr ex_ticks)) 1 = Some Netdev0 /\
  Ifname Netdev0 = EmptyString.
Proof.
  intros prev curr.
  apply (inactive_entry_is_zero sValue_spec ex_half ex_full ex_unknown
           prev curr ex_ticks 1).
  - reflexivity.
  - apply le_n.
  - reflexivity.
Defined.

(** The first scenario of the spec: 1000 B/s each way on a full duplex
    link of 1 Gb/s is 0.0008 percent, i.e. 8/10000. *)
Example scenario_full_duplex :
  nth_error (elems (ex_delta (Some [eth0_before])
                      (Some [eth0_after 1000000000 ex_full]) (F64.of_Z 1))) 0
  = Some (set_Utilization (F64.div (F64.of_Z 8) (F64.of_Z 10000))
         (set_Tutil (F64.div (F64.of_Z 8) (F64.of_Z 10000))
         (set_Rutil (F64.div (F64.of_Z 8) (F64.of_Z 10000))
         (set_Taverage (F64.of_Z 100) (set_Raverage (F64.of_Z 100)
         (set_Packets (F64.of_Z 35)
         (set_Uptime F64.zero
         (sample "eth0" 1000 10 1000 10 0 1000000000 ex_full)))))))).
Proof. vm_compute. reflexivity. Qed.

(** The second scenario: on a half duplex link, 0.0016 percent. *)
Example scenario_half_duplex :
  option_map Utilization
    (nth_error (elems (ex_delta (Some [eth0_before])
                         (Some [eth0_after 1000000000 ex_half]) (F64.of_Z 1))) 0)
  = Some (F64.div (F64.of_Z 16) (F64.of_Z 10000)).
Proof. vm_compute. reflexivity. Qed.

Lemma rate_fields_of_active_entry_witness :
  let prev := Some [eth0_before] in
  let curr := Some [eth0_after 1000000000 ex_full] in
  exists o,
    nth_error (elems (ex_delta prev curr ex_ticks)) 0 = Some o /\
    Rbytes o =
      F64.mul (F64.div (F64.sub (F64.of_Z 2000) (F64.of_Z 1000)) (F64.of_Z 1))
              ex_ticks /\
    F64.geb (Rbytes o) F64.zero = true.
Proof.
  intros prev curr.
  destruct (rate_fields_of_active_entry ex_half ex_full ex_unknown
              prev curr ex_ticks 0) as (o & Ho & Hf).
  - reflexivity.
  - apply le_n.
  - reflexivity.
  - reflexivity.
  - exists o. split; [exact Ho|].
    destruct (Hf Rbytes (or_introl eq_refl)) as [Heq Hge].
    split; [exact Heq|]. apply Hge; reflexivity.
Defined.

Lemma no_speed_no_utilization_witness :
  let prev := Some [eth0_before] in
  let curr := Some [eth0_after 0 ex_full] in
  exists o,
    nth_error (elems (ex_delta prev curr ex_ticks)) 0 = Some o /\
    Rutil o = F64.zero /\ Tutil o = F64.zero /\ Utilization o = F64.zero.
Proof.
  intros prev curr.
  apply (no_speed_no_utilization sValue_spec ex_half ex_full ex_unknown
           prev curr ex_ticks 0).
  - reflexivity.
  - apply le_n.
  - reflexivity.
  - reflexivity.
Defined.

Lemma ex_local_ok :
  readNetdevsLocal ex_Open ex_uptime ex_Sscanln ex_GetLinkSettings
    "/proc/net/dev" = (ex_local, None).
Proof. vm_compute. reflexivity. Defined.

Lemma ex_remote_ok : readNetdevsRemote ex_db = (ex_remote, None).
Proof. vm_compute. reflexivity. Defined.

Lemma ex_remote_later_ok :
  readNetdevsRemote ex_db_later = (ex_remote_later, None).
Proof. vm_compute. reflexivity. Defined.

Lemma filter_excludes_virtual_interfaces_witness :
  map Ifname (elems ex_local) = ["eth0:"; "wlan0:"]%string /\
  (forall n, In n (elems ex_local) -> ~ denied (Ifname n)) /\
  map Ifname (elems ex_remote) = ["eth0"]%string /\
  (forall n, In n (elems ex_remote) -> ~ denied (Ifname n)).
Proof.
  destruct (filter_excludes_virtual_interfaces ex_Open ex_uptime ex_Sscanln
              ex_GetLinkSettings) as (_ & Hlocal & Hremote & _).
  destruct (Hlocal "/proc/net/dev"%string ex_local ex_local_ok)
    as (lines & rows & _ & _ & _ & Hl & _).
  destruct (Hremote ex_db ex_remote ex_remote_ok) as (rs & _ & _ & Hr & _).
  split; [vm_compute; reflexivity|]. split; [exact Hl|].
  split; [vm_compute; reflexivity|exact Hr].
Defined.

Lemma schema_absent_is_empty_not_error_witness :
  Local ex_db_down = false /\
  readNetdevs ex_Open ex_uptime ex_Sscanln ex_GetLinkSettings ex_db_down false
    = (Some [], None) /\
  readNetdevs ex_Open ex_uptime ex_Sscanln ex_GetLinkSettings ex_db_down true
    = (None, Some (Err "connection refused")).
Proof.
  destruct (schema_absent_is_empty_not_error ex_Open ex_uptime ex_Sscanln
              ex_GetLinkSettings ex_db_down eq_refl) as [Hempty Hdown].
  split; [reflexivity|]. split; [exact Hempty|].
  exact (proj1 (Hdown (Err "connection refused") eq_refl)).
Defined.


(** * Further properties of the delta computation *)

(** ** More on [math.Max], [math.Min] and sums *)

Lemma Max_cases (x y : float64) :
  F64.Max x y = x \/ F64.Max x y = y \/ F64.Max x y = F64.NaN.
Proof.
  unfold F64.Max.
  destruct (F64.IsInf x false) eqn:Hx.
  { destruct x as [|[|]| |]; try discriminate Hx. now left. }
  destruct (F64.IsInf y false) eqn:Hy.
  { destruct y as [|[|]| |]; try discriminate Hy. right; now left. }
  simpl.
  destruct (F64.IsNaN x || F64.IsNaN y); [now right; right|].
  destruct (F64.eqb x F64.zero && F64.eqb x y).
  - destruct (F64.Signbit x); auto.
  - destruct (F64.gtb x y); auto.
Qed.

Lemma Min_cases (x y : float64) :
  F64.Min x y = x \/ F64.Min x y = y \/ F64.Min x y = F64.NaN.
Proof.
  unfold F64.Min.
  destruct (F64.IsInf x true) eqn:Hx.
  { destruct x as [|[|]| |]; try discriminate Hx. now left. }
  destruct (F64.IsInf y true) eqn:Hy.
  { destruct y as [|[|]| |]; try discriminate Hy. right; now left. }
  simpl.
  destruct (F64.IsNaN x || F64.IsNaN y); [now right; right|].
  destruct (F64.eqb x F64.zero && F64.eqb x y).
  - destruct (F64.Signbit x); auto.
  - destruct (F64.ltb x y); auto.
Qed.

Lemma Max_not_gtb (x y z : float64) :
  F64.gtb x z = false -> F64.gtb y z = false -> F64.gtb (F64.Max x y) z = false.
Proof.
  intros Hx Hy. destruct (Max_cases x y) as [->|[->| ->]]; auto.
  apply ltb_nan_r.
Qed.

Lemma nonneg_not_nan (x : float64) : nonneg x = true -> F64.IsNaN x = false.
Proof. destruct x as [[|]|[|]| |[|] m e]; simpl; congruence. Qed.

Lemma geb_zero_nonneg (x : float64) :
  F64.geb x F64.zero = true <-> nonneg x = true.
Proof.
  destruct x as [[|]|[|]| |[|] m e]; split; intros H;
    try discriminate H; reflexivity.
Qed.

Lemma Max_nonneg (x y : float64) :
  nonneg x = true -> nonneg y = true -> nonneg (F64.Max x y) = true.
Proof.
  intros Hx Hy. destruct (Max_cases x y) as [E|[E|E]]; rewrite E; auto.
  pose proof (Max_nan x y (nonneg_not_nan x Hx) (nonneg_not_nan y Hy)) as H.
  rewrite E in H. discriminate H.
Qed.

Lemma Min_nonneg (x y : float64) :
  nonneg x = true -> nonneg y = true -> nonneg (F64.Min x y) = true.
Proof.
  intros Hx Hy. destruct (Min_cases x y) as [E|[E|E]]; rewrite E; auto.
  pose proof (Min_nan x y (nonneg_not_nan x Hx) (nonneg_not_nan y Hy)) as H.
  rewrite E in H. discriminate H.
Qed.

Lemma Max_leb (x y z : float64) :
  F64.IsNaN x = false -> F64.IsNaN y = false ->
  F64.leb x z = true -> F64.leb y z = true -> F64.leb (F64.Max x y) z = true.
Proof.
  intros Nx Ny Hx Hy. destruct (Max_cases x y) as [E|[E|E]]; rewrite E; auto.
  pose proof (Max_nan x y Nx Ny) as H. rewrite E in H. discriminate H.
Qed.

(** The sum of two non-negative floats is non-negative. *)
Lemma add_nonneg (x y : float64) :
  nonneg x = true -> nonneg y = true -> nonneg (F64.add x y) = true.
Proof.
  destruct x as [[|]|[|]| |[|] mx ex], y as [[|]|[|]| |[|] my ey];
    intros Hx Hy; try discriminate Hx; try discriminate Hy; try reflexivity.
  apply signed_false_nonneg. unfold F64.add, SFadd. simpl cond_Zopp.
  unfold binary_normalize.
  destruct (Zpos _ + Zpos _) as [|d|d] eqn:E; try lia.
  apply binary_round_signed.
Qed.

(** ** Conversion of an integer below 2^53 *)

Lemma digits2_pos_shift (p n : positive) :
  digits2_pos (Pos.iter xO p n) = (digits2_pos p + n)%positive.
Proof.
  induction n as [|n IH] using Pos.peano_ind.
  - simpl. lia.
  - rewrite Pos.iter_succ. simpl digits2_pos. rewrite IH. lia.
Qed.

Lemma binary_round_aux_canonical (s : bool) (m : positive) (e : Z) :
  Zpos (digits2_pos m) = 53 -> -1074 <= e <= 971 ->
  binary_round_aux F64.prec F64.emax s (Zpos m) e loc_Exact = S754_finite s m e.
Proof.
  intros Hd He. unfold binary_round_aux.
  assert (Hs : shr_fexp F64.prec F64.emax (Zpos m) e loc_Exact =
               ({| shr_m := Zpos m; shr_r := false; shr_s := false |}, e)).
  { unfold shr_fexp, fexp, emin, F64.prec, F64.emax. simpl Zdigits2.
    rewrite Hd. replace (Z.max (53 + e - 53) (3 - 1024 - 53) - e) with 0 by lia.
    reflexivity. }
  rewrite Hs. simpl. rewrite Hs. simpl.
  replace (e <=? 971) with true by (symmetry; apply Z.leb_le; lia).
  reflexivity.
Qed.

Lemma of_Z_posfin (z : Z) : 0 < z < 2 ^ 53 -> posfin (F64.of_Z z) = true.
Proof.
  intros [H0 H1]. destruct z as [|p|p]; try lia.
  unfold F64.of_Z, binary_normalize, binary_round.
  pose proof (digits2_pos_bounds p) as [Hlo Hhi].
  set (d := Zpos (digits2_pos p)) in *.
  assert (Hd : 1 <= d <= 53).
  { split; [unfold d; lia|].
    destruct (Z.le_gt_cases d 53) as [|Hgt]; auto.
    assert (2 ^ 53 <= 2 ^ (d - 1)) by (apply Z.pow_le_mono_r; lia). lia. }
  unfold fexp, emin, F64.prec, F64.emax. fold d.
  replace (Z.max (d + 0 - 53) (3 - 1024 - 53)) with (d - 53) by lia.
  unfold shl_align.
  destruct (d - 53 - 0) as [|q|q] eqn:E; try lia.
  - rewrite binary_round_aux_canonical; [reflexivity| |lia].
    fold d. lia.
  - rewrite binary_round_aux_canonical; [reflexivity| |lia].
    rewrite digits2_pos_shift, Pos2Z.inj_add. fold d. lia.
Qed.

Section DeltaMore.

Variable sValue : float64 -> float64 -> float64 -> float64 -> float64.
Variables duplexHalf duplexFull duplexUnknown : Z.

(** Every output entry, by the inactivity test. *)
Lemma delta_entry (prev curr : Netdevs) (ticks : float64) (i : nat) :
  len prev = len curr -> (i < len curr)%nat ->
  nth_error
    (elems (countNetdevsUsage sValue duplexHalf duplexFull duplexUnknown
              prev curr ticks)) i =
    Some (if inactive (at_index (elems curr) i) then Netdev0
          else usage_entry_fields sValue duplexHalf duplexFull
                 (at_index (elems prev) i) (at_index (elems curr) i) ticks
                 Netdev0).
Proof.
  intros Hlen Hi. destruct (inactive (at_index (elems curr) i)) eqn:E.
  - now apply delta_inactive.
  - now apply delta_active.
Qed.

(** X1. [countNetdevsUsage] returns [nil] exactly when the two snapshots
    differ in length; on snapshots of one length, two [nil] snapshots
    included, it returns a slice that is not [nil] and has that length. *)
Theorem countNetdevsUsage_nil_iff (prev curr : Netdevs) (ticks : float64) :
  (countNetdevsUsage sValue duplexHalf duplexFull duplexUnknown prev curr ticks
     = None <-> len prev <> len curr) /\
  (len prev = len curr ->
   exists out,
     countNetdevsUsage sValue duplexHalf duplexFull duplexUnknown prev curr
       ticks = Some out /\
     List.length out = len curr).
Proof.
  split.
  - unfold countNetdevsUsage.
    destruct (Nat.eqb_spec (len curr) (len prev)) as [E|E]; simpl.
    + split; [discriminate | congruence].
    + split; [congruence | reflexivity].
  - intros Hlen.
    destruct (countNetdevsUsage_at sValue duplexHalf duplexFull duplexUnknown
                prev curr ticks Hlen) as (out & Ho & Hl & _).
    now exists out.
Qed.

(** X2. An active output entry takes its name, speed and duplex from
    [curr[i]], and its [Packets] is the sum of the current packet counters,
    not a rate: it depends neither on [prev] nor on [ticks]. In every
    output entry [Packets == 0] holds exactly when the interface was
    skipped as inactive. *)
Theorem active_entry_identity (prev curr : Netdevs) (ticks : float64) (i : nat) :
  len prev = len curr -> (i < len curr)%nat ->
  exists o,
    nth_error
      (elems (countNetdevsUsage sValue duplexHalf duplexFull duplexUnknown
                prev curr ticks)) i = Some o /\
    F64.eqb (Packets o) F64.zero = inactive (at_index (elems curr) i) /\
    (inactive (at_index (elems curr) i) = false ->
     Ifname o = Ifname (at_index (elems curr) i) /\
     Speed o = Speed (at_index (elems curr) i) /\
     Duplex o = Duplex (at_index (elems curr) i) /\
     Packets o = F64.add (Rpackets (at_index (elems curr) i))
                         (Tpackets (at_index (elems curr) i))).
Proof.
  intros Hlen Hi. eexists. split; [now apply delta_entry|].
  destruct (inactive (at_index (elems curr) i)) eqn:E.
  - split; [reflexivity | discriminate].
  - split; [exact E|]. intros _. repeat split.
Qed.

(** X3. The rate fields of an active entry are [sValue] of the previous
    and current value of the same counter, all with the one interval
    [curr[i].Uptime - prev[i].Uptime] and the one [ticks]. The drop, fifo,
    frame, compressed, multicast and carrier fields and [Uptime] are
    computed for no entry: they are 0 in the whole output. *)
Theorem computed_and_untouched_fields (prev curr : Netdevs) (ticks : float64)
    (i : nat) :
  len prev = len curr -> (i < len curr)%nat ->
  exists o,
    nth_error
      (elems (countNetdevsUsage sValue duplexHalf duplexFull duplexUnknown
                prev curr ticks)) i = Some o /\
    (forall f,
       In f [Rdrop; Rfifo; Rframe; Rcompressed; Rmulticast; Tdrop; Tfifo;
             Tcarrier; Tcompressed; Uptime] ->
       f o = F64.zero) /\
    (inactive (at_index (elems curr) i) = false ->
     forall f, In f rate_fields ->
       f o = sValue (f (at_index (elems prev) i)) (f (at_index (elems curr) i))
               (interval prev curr i) ticks).
Proof.
  intros Hlen Hi. eexists. split; [now apply delta_entry|].
  destruct (inactive (at_index (elems curr) i)) eqn:E.
  - split; [|discriminate]. intros f Hf. simpl in Hf.
    repeat (destruct Hf as [<-|Hf]; [reflexivity|]). contradiction.
  - split.
    + intros f Hf. simpl in Hf.
      repeat (destruct Hf as [<-|Hf]; [reflexivity|]). contradiction.
    + intros _ f Hf. simpl in Hf.
      repeat (destruct Hf as [<-|Hf]; [reflexivity|]). contradiction.
Qed.


(** X5. No utilization field of the output exceeds 100, whatever the
    counters, the link speed, the duplex value and [sValue] are. *)
Theorem utilization_never_exceeds_100 (prev curr : Netdevs) (ticks : float64)
    (i : nat) :
  len prev = len curr -> (i < len curr)%nat ->
  exists o,
    nth_error
      (elems (countNetdevsUsage sValue duplexHalf duplexFull duplexUnknown
                prev curr ticks)) i = Some o /\
    F64.gtb (Rutil o) (F64.of_Z 100) = false /\
    F64.gtb (Tutil o) (F64.of_Z 100) = false /\
    F64.gtb (Utilization o) (F64.of_Z 100) = false.
Proof.
  intros Hlen Hi. eexists. split; [now apply delta_entry|].
  destruct (inactive (at_index (elems curr) i)); [repeat split|].
  cbn [usage_entry_fields Rutil Tutil Utilization].
  destruct (0 <? Speed (at_index (elems curr) i)); [|repeat split].
  assert (Hn : F64.IsNaN c100 = false) by reflexivity.
  split; [now apply Min_not_gtb_r|]. split; [now apply Min_not_gtb_r|].
  destruct (Duplex _ =? duplexFull).
  - apply Max_not_gtb; now apply Min_not_gtb_r.
  - destruct (Duplex _ =? duplexHalf); [now apply Min_not_gtb_r|reflexivity].
Qed.

(** X6. On a link speed that is a positive [uint32], an active entry whose
    byte rates are [>= 0] has its three utilization fields between 0 and
    100. *)
Theorem utilization_is_a_percentage (prev curr : Netdevs) (ticks : float64)
    (i : nat) :
  len prev = len curr -> (i < len curr)%nat ->
  inactive (at_index (elems curr) i) = false ->
  0 < Speed (at_index (elems curr) i) < 2 ^ 32 ->
  exists o,
    nth_error
      (elems (countNetdevsUsage sValue duplexHalf duplexFull duplexUnknown
                prev curr ticks)) i = Some o /\
    (F64.geb (Rbytes o) F64.zero = true ->
     F64.geb (Tbytes o) F64.zero = true ->
     (F64.leb F64.zero (Rutil o) = true /\
      F64.leb (Rutil o) (F64.of_Z 100) = true) /\
     (F64.leb F64.zero (Tutil o) = true /\
      F64.leb (Tutil o) (F64.of_Z 100) = true) /\
     (F64.leb F64.zero (Utilization o) = true /\
      F64.leb (Utilization o) (F64.of_Z 100) = true)).
Proof.
  intros Hlen Hi Hact Hs. eexists. split; [now apply delta_active|].
  cbn [usage_entry_fields Rbytes Tbytes Rutil Tutil Utilization].
  replace (0 <? Speed (at_index (elems curr) i)) with true
    by (symmetry; apply Z.ltb_lt; lia).
  set (rb := sValue _ _ _ _). set (tb := sValue _ _ _ _).
  intros Hr Ht. apply geb_zero_nonneg in Hr, Ht.
  assert (Hsp : posfin (F64.of_Z (Speed (at_index (elems curr) i))) = true).
  { apply of_Z_posfin. split; [lia|].
    apply Z.lt_trans with (2 ^ 32); [lia|reflexivity]. }
  assert (H800 : posfin c800 = true) by reflexivity.
  assert (H100 : nonneg c100 = true) by reflexivity.
  assert (N100 : F64.IsNaN c100 = false) by reflexivity.
  assert (U : forall b, nonneg b = true ->
            nonneg (F64.Min (F64.div (F64.mul b c800)
                      (F64.of_Z (Speed (at_index (elems curr) i)))) c100) = true).
  { intros b Hb. apply Min_nonneg; auto.
    apply div_nonneg; auto. now apply mul_nonneg. }
  assert (R : forall u, nonneg u = true ->
            F64.leb F64.zero u = true) by (intros u Hu; now apply geb_zero_nonneg).
  assert (L : forall b, nonneg b = true ->
            F64.leb (F64.Min (F64.div (F64.mul b c800)
                      (F64.of_Z (Speed (at_index (elems curr) i)))) c100)
                    (F64.of_Z 100) = true).
  { intros b Hb. apply Min_leb_r; auto. apply nonneg_not_nan. now apply U. }
  split; [split; [apply R, U | apply L]; auto|].
  split; [split; [apply R, U | apply L]; auto|].
  destruct (Duplex _ =? duplexFull).
  - split; [apply R, Max_nonneg; now apply U|].
    apply Max_leb; try (apply nonneg_not_nan, U; assumption); now apply L.
  - destruct (Duplex _ =? duplexHalf).
    + split; [apply R, U | apply L]; now apply add_nonneg.
    + split; reflexivity.
Qed.

(** X7. The [switch] on the duplex has no default case: with a positive
    link speed, any duplex value that is neither [duplexFull] nor
    [duplexHalf] leaves the overall utilization of an active entry at 0,
    whether it is [duplexUnknown] or not. *)
Theorem other_duplex_no_utilization (prev curr : Netdevs) (ticks : float64)
    (i : nat) :
  len prev = len curr -> (i < len curr)%nat ->
  inactive (at_index (elems curr) i) = false ->
  0 < Speed (at_index (elems curr) i) ->
  Duplex (at_index (elems curr) i) <> duplexFull ->
  Duplex (at_index (elems curr) i) <> duplexHalf ->
  exists o,
    nth_error
      (elems (countNetdevsUsage sValue duplexHalf duplexFull duplexUnknown
                prev curr ticks)) i = Some o /\
    Utilization o = F64.zero.
Proof.
  intros Hlen Hi Hact Hs Hf Hh. eexists. split; [now apply delta_active|].
  cbn [usage_entry_fields Utilization].
  apply Z.ltb_lt in Hs. apply Z.eqb_neq in Hf, Hh. now rewrite Hs, Hf, Hh.
Qed.

(** X8. The entries are computed independently: the delta of two
    concatenated snapshots is the concatenation of the deltas, when the
    parts have pairwise the same length. *)
Theorem countNetdevsUsage_app (p1 p2 c1 c2 : list Netdev) (ticks : float64) :
  List.length p1 = List.length c1 -> List.length p2 = List.length c2 ->
  countNetdevsUsage sValue duplexHalf duplexFull duplexUnknown
    (Some (List.app p1 p2)) (Some (List.app c1 c2)) ticks =
  Some (List.app
          (elems (countNetdevsUsage sValue duplexHalf duplexFull duplexUnknown
                    (Some p1) (Some c1) ticks))
          (elems (countNetdevsUsage sValue duplexHalf duplexFull duplexUnknown
                    (Some p2) (Some c2) ticks))).
Proof.
  intros H1 H2.
  assert (H12 : len (Some (List.app p1 p2)) = len (Some (List.app c1 c2)))
    by (unfold len; simpl; rewrite !length_app; congruence).
  destruct (countNetdevsUsage_at sValue duplexHalf duplexFull duplexUnknown
              (Some (List.app p1 p2)) (Some (List.app c1 c2)) ticks H12)
    as (out & -> & Hl & Hat).
  destruct (countNetdevsUsage_at sValue duplexHalf duplexFull duplexUnknown
              (Some p1) (Some c1) ticks H1) as (o1 & -> & Hl1 & Hat1).
  destruct (countNetdevsUsage_at sValue duplexHalf duplexFull duplexUnknown
              (Some p2) (Some c2) ticks H2) as (o2 & -> & Hl2 & Hat2).
  unfold len in *; simpl in *. f_equal.
  apply (nth_ext _ _ Netdev0 Netdev0).
  - rewrite length_app, Hl, Hl1, Hl2. apply length_app.
  - intros n Hn. fold (at_index out n). rewrite Hat by lia.
    unfold at_index in *.
    destruct (Nat.lt_ge_cases n (List.length c1)) as [Hlt|Hge].
    + rewrite !app_nth1 by lia. now rewrite Hat1.
    + rewrite !app_nth2 by lia. rewrite Hl1, <- H1.
      rewrite length_app in Hl. rewrite Hat2 by lia. now rewrite H1.
Qed.

End DeltaMore.

(** * Further properties of the acquisition *)

Lemma extend_append (stat : Netdevs) (n : Netdev) (l : list Netdev) :
  extend (append stat n) l = extend stat (n :: l).
Proof.
  destruct l as [|h t]; simpl.
  - reflexivity.
  - unfold append. simpl. now rewrite <- app_assoc.
Qed.

Lemma retained_rows_cons (r : Row) (rows : list Row) :
  retained_rows (r :: rows) =
    if MatchString (col_Ifname r) then retained_rows rows
    else r :: retained_rows rows.
Proof.
  unfold retained_rows, retained. simpl.
  now destruct (MatchString (col_Ifname r)).
Qed.

Section LocalMore.

Variable os_Open : string -> result (list string).
Variable uptime : result float64.
Variable Sscanln : string -> result Row.
Variable GetLinkSettings : string -> Z * Z * option error.

Lemma local_sample_unfold up r speed duplex e :
  GetLinkSettings (col_Ifname r) = (speed, duplex, e) ->
  local_sample GetLinkSettings up r =
    set_Duplex duplex
      (set_Speed speed
         (set_Uptime up
            (set_Saturation
               (F64.add (F64.add (F64.add (F64.add (F64.add
                  (Rerrs (scan_into r Netdev0)) (Rdrop (scan_into r Netdev0)))
                  (Tdrop (scan_into r Netdev0))) (Tfifo (scan_into r Netdev0)))
                  (Tcolls (scan_into r Netdev0))) (Tcarrier (scan_into r Netdev0)))
               (scan_into r Netdev0)))).
Proof.
  intros H. unfold local_sample, six_counters. rewrite H. reflexivity.
Qed.

Lemma local_loop_collect statfile up : forall lines rows stat0,
  Forall2 (fun line r => Sscanln line = Ok r) lines rows ->
  local_loop Sscanln GetLinkSettings statfile up lines stat0 =
    (extend stat0 (map (local_sample GetLinkSettings up) (retained_rows rows)),
     None).
Proof.
  induction lines as [|line rest IH]; intros rows stat0 H;
    inversion H as [|? r ? rows' Hscan Hrest]; subst.
  - reflexivity.
  - cbn [local_loop]. rewrite Hscan, scan_into_Ifname, retained_rows_cons.
    destruct (MatchString (col_Ifname r)); [now apply IH|].
    change (GetLinkSettings (Ifname _)) with (GetLinkSettings (col_Ifname r)).
    cbn [map]. rewrite <- extend_append.
    destruct (GetLinkSettings (col_Ifname r)) as [[speed duplex] e] eqn:HG.
    rewrite (local_sample_unfold up r speed duplex e HG).
    apply IH. exact Hrest.
Qed.

Lemma local_loop_bad_line statfile up : forall lines stat0 line e,
  In line lines -> Sscanln line = Fail e ->
  local_loop Sscanln GetLinkSettings statfile up lines stat0 =
    (None, Some (bad_content statfile)).
Proof.
  induction lines as [|l rest IH]; intros stat0 line e Hin Hfail;
    [contradiction|].
  cbn [local_loop].
  destruct (Sscanln l) as [r|e'] eqn:Hl; [|reflexivity].
  destruct Hin as [->|Hin]; [congruence|].
  destruct (MatchString _); [now apply (IH _ line e)|].
  destruct (GetLinkSettings _) as [[speed duplex] e'].
  now apply (IH _ line e).
Qed.

Lemma local_loop_error statfile up : forall lines stat0 stat e,
  local_loop Sscanln GetLinkSettings statfile up lines stat0 = (stat, Some e) ->
  stat = None.
Proof.
  induction lines as [|l rest IH]; intros stat0 stat e H; cbn [local_loop] in H.
  - discriminate H.
  - destruct (Sscanln l) as [r|e']; [|congruence].
    destruct (MatchString _); [now apply (IH _ _ _ H)|].
    destruct (GetLinkSettings _) as [[speed duplex] e'].
    now apply (IH _ _ _ H).
Qed.

(** X9. The errors of the local source. A failure of [os.Open], or of
    [uptime()], is returned as it is. Once both succeed, a line after the
    two header lines that does not scan makes the whole read fail with the
    error "<statfile> bad content", whatever the lines before it hold; the
    snapshot is then [nil]. *)
Theorem readNetdevsLocal_errors (statfile : string) :
  (forall err, os_Open statfile = Fail err ->
     readNetdevsLocal os_Open uptime Sscanln GetLinkSettings statfile
       = (None, Some err)) /\
  (forall lines err, os_Open statfile = Ok lines -> uptime = Fail err ->
     readNetdevsLocal os_Open uptime Sscanln GetLinkSettings statfile
       = (None, Some err)) /\
  (forall lines up line e,
     os_Open statfile = Ok lines -> uptime = Ok up ->
     In line (skipn 2 lines) -> Sscanln line = Fail e ->
     readNetdevsLocal os_Open uptime Sscanln GetLinkSettings statfile
       = (None, Some (Err (String.append statfile " bad content")))).
Proof.
  unfold readNetdevsLocal. split; [|split].
  - intros err ->. reflexivity.
  - intros lines err -> ->. reflexivity.
  - intros lines up line e -> -> Hin Hfail.
    apply (local_loop_bad_line _ _ _ _ line e Hin Hfail).
Qed.

(** X10. The result of a local read whose lines all scan: the two header
    lines are dropped unread, and the snapshot holds, in the order of the
    file, one sample for each row that the filter retains, with the
    scanned counters, the sum of six counters as [Saturation], the one
    uptime of the call and the link settings of its name (those that
    [GetLinkSettings] returns, also beside an error). When no row is
    retained, as for a file of headers only, the snapshot is [nil] and
    there is no error. *)
Theorem readNetdevsLocal_snapshot (statfile : string) (lines : list string)
    (up : float64) (rows : list Row) :
  os_Open statfile = Ok lines -> uptime = Ok up ->
  Forall2 (fun line r => Sscanln line = Ok r) (skipn 2 lines) rows ->
  readNetdevsLocal os_Open uptime Sscanln GetLinkSettings statfile =
    (match retained_rows rows with
     | [] => None
     | _ => Some (map (local_sample GetLinkSettings up) (retained_rows rows))
     end, None).
Proof.
  intros Ho Hu Hs. unfold readNetdevsLocal. rewrite Ho, Hu.
  rewrite (local_loop_collect _ _ _ _ _ Hs).
  unfold extend. now destruct (retained_rows rows).
Qed.

End LocalMore.

(** X11. The local source asks for the link settings of the retained
    interfaces only: two [GetLinkSettings] that agree on every name
    without [docker], [virbr] and [veth] give the same result. *)
Theorem readNetdevsLocal_link_settings_of_retained
    (os_Open : string -> result (list string)) (uptime : result float64)
    (Sscanln : string -> result Row)
    (G1 G2 : string -> Z * Z * option error) (statfile : string) :
  (forall name, ~ denied name -> G1 name = G2 name) ->
  readNetdevsLocal os_Open uptime Sscanln G1 statfile =
  readNetdevsLocal os_Open uptime Sscanln G2 statfile.
Proof.
  intros HG. unfold readNetdevsLocal.
  destruct (os_Open statfile) as [lines|e]; [|reflexivity].
  destruct uptime as [up|e]; [|reflexivity].
  generalize (skipn 2 lines) (@None (list Netdev)).
  induction l as [|line rest IH]; intros stat0; [reflexivity|].
  cbn [local_loop]. destruct (Sscanln line) as [r|e]; [|reflexivity].
  rewrite scan_into_Ifname.
  destruct (MatchString (col_Ifname r)) eqn:Hm; [apply IH|].
  change (G1 (Ifname _)) with (G1 (col_Ifname r)).
  change (G2 (Ifname _)) with (G2 (col_Ifname r)).
  rewrite (HG (col_Ifname r)).
  - destruct (G2 (col_Ifname r)) as [[speed duplex] e]. apply IH.
  - apply retained_not_denied. unfold retained. now rewrite Hm.
Qed.

(** ** The remote source *)

Lemma elems_extend_nil (l : list Netdev) : elems (extend None l) = l.
Proof. now destruct l. Qed.

Lemma remote_sample_unfold db r speed duplex :
  QueryRow_link db (col_Ifname r) = Ok (speed, duplex) ->
  remote_sample db r =
    set_Duplex duplex
      (set_Speed speed (set_Uptime (remote_uptime db) (scan_into r Netdev0))).
Proof.
  intros H. unfold remote_sample. rewrite H. reflexivity.
Qed.

Lemma links_answer_cons db r rows :
  links_answer db (r :: rows) ->
  (retained (col_Ifname r) = true ->
   exists settings, QueryRow_link db (col_Ifname r) = Ok settings) /\
  links_answer db rows.
Proof.
  intros H. split.
  - intros Hr. apply (H r); [now left | exact Hr].
  - intros r' Hin. apply H. now right.
Qed.

(** The loop on rows that scan and whose link settings answer, followed by
    any rows. *)
Lemma remote_loop_prefix db : forall good tail stat0,
  links_answer db good ->
  remote_loop db (remote_uptime db) (List.app (map Ok good) tail) stat0 =
  remote_loop db (remote_uptime db) tail
    (extend stat0 (map (remote_sample db) (retained_rows good))).
Proof.
  induction good as [|r good IH]; intros tail stat0 HL; [reflexivity|].
  apply links_answer_cons in HL as [Hr HL].
  cbn [map List.app remote_loop].
  rewrite scan_into_Ifname, retained_rows_cons.
  destruct (MatchString (col_Ifname r)) eqn:Hm; [now apply IH|].
  change (QueryRow_link db (Ifname _)) with (QueryRow_link db (col_Ifname r)).
  destruct Hr as [[speed duplex] Hq]; [unfold retained; now rewrite Hm|].
  rewrite Hq. cbn [map]. rewrite <- extend_append.
  rewrite (remote_sample_unfold db r speed duplex Hq).
  now apply IH.
Qed.

Lemma remote_loop_error db up : forall rows stat0 stat e,
  remote_loop db up rows stat0 = (stat, Some e) -> stat = None.
Proof.
  induction rows as [|row rest IH]; intros stat0 stat e H;
    cbn [remote_loop] in H.
  - discriminate H.
  - destruct row as [r|e']; [|congruence].
    destruct (MatchString _); [now apply (IH _ _ _ H)|].
    destruct (QueryRow_link db _) as [[speed duplex]|e']; [|congruence].
    now apply (IH _ _ _ H).
Qed.

(** X12. The result of a remote read whose rows all scan and whose link
    settings queries answer for the retained rows: one sample for each
    retained row, in the order of the query, with the scanned counters,
    the link settings of its name and the uptime of the server. A failure
    of the uptime query is not an error: the samples then have [Uptime] 0.
    When no row is retained the snapshot is [nil], with no error. *)
Theorem readNetdevsRemote_snapshot (db : DB) (rows : list Row) :
  Query_netdev db = Ok (map Ok rows) ->
  links_answer db rows ->
  readNetdevsRemote db =
    (match retained_rows rows with
     | [] => None
     | _ => Some (map (remote_sample db) (retained_rows rows))
     end, None) /\
  (forall err, QueryRow_uptime db = Fail err ->
     Forall (fun n => Uptime n = F64.zero) (elems (fst (readNetdevsRemote db)))).
Proof.
  intros Hq HL.
  assert (E : readNetdevsRemote db =
              (extend None (map (remote_sample db) (retained_rows rows)), None)).
  { unfold readNetdevsRemote. rewrite Hq. fold (remote_uptime db).
    rewrite <- (app_nil_r (map Ok rows)).
    now rewrite remote_loop_prefix. }
  split.
  - rewrite E. unfold extend. now destruct (retained_rows rows).
  - intros err Hu. rewrite E. cbn [fst].
    assert (F : Forall (fun n => Uptime n = F64.zero)
                  (map (remote_sample db) (retained_rows rows))).
    { apply Forall_forall. intros n Hn.
      apply in_map_iff in Hn as (r & <- & _).
      unfold remote_sample, remote_uptime. rewrite Hu.
      destruct (QueryRow_link db (col_Ifname r)) as [[speed duplex]|e];
        reflexivity. }
    now rewrite elems_extend_nil.
Qed.

(** X13. The errors of the remote source. A failure of the query of the
    counters is returned as it is. After rows that scan and whose link
    settings answer, the first row that fails to scan, or the first
    retained row whose link settings query fails, ends the read with that
    very error; the snapshot is then [nil], whatever was read before. *)
Theorem readNetdevsRemote_errors (db : DB) :
  (forall err, Query_netdev db = Fail err ->
     readNetdevsRemote db = (None, Some err)) /\
  (forall good err rest,
     Query_netdev db = Ok (List.app (map Ok good) (Fail err :: rest)) ->
     links_answer db good ->
     readNetdevsRemote db = (None, Some err)) /\
  (forall good r err rest,
     Query_netdev db = Ok (List.app (map Ok good) (Ok r :: rest)) ->
     links_answer db good ->
     ~ denied (col_Ifname r) ->
     QueryRow_link db (col_Ifname r) = Fail err ->
     readNetdevsRemote db = (None, Some err)).
Proof.
  split; [|split].
  - intros err H. unfold readNetdevsRemote. now rewrite H.
  - intros good err rest Hq HL. unfold readNetdevsRemote. rewrite Hq.
    fold (remote_uptime db). now rewrite remote_loop_prefix.
  - intros good r err rest Hq HL Hd Hlink. unfold readNetdevsRemote.
    rewrite Hq. fold (remote_uptime db). rewrite remote_loop_prefix by exact HL.
    cbn [remote_loop]. rewrite scan_into_Ifname.
    apply retained_not_denied in Hd. unfold retained in Hd.
    destruct (MatchString (col_Ifname r)); [discriminate Hd|].
    change (QueryRow_link db (Ifname _)) with (QueryRow_link db (col_Ifname r)).
    now rewrite Hlink.
Qed.

Lemma remote_loop_links db1 db2 up :
  (forall name, ~ denied name -> QueryRow_link db1 name = QueryRow_link db2 name) ->
  forall rows stat0,
    remote_loop db1 up rows stat0 = remote_loop db2 up rows stat0.
Proof.
  intros HL. induction rows as [|row rest IH]; intros stat0; [reflexivity|].
  cbn [remote_loop]. destruct row as [r|e]; [|reflexivity].
  rewrite scan_into_Ifname.
  destruct (MatchString (col_Ifname r)) eqn:Hm; [apply IH|].
  change (QueryRow_link db1 (Ifname _)) with (QueryRow_link db1 (col_Ifname r)).
  change (QueryRow_link db2 (Ifname _)) with (QueryRow_link db2 (col_Ifname r)).
  rewrite (HL (col_Ifname r)).
  - destruct (QueryRow_link db2 (col_Ifname r)) as [[speed duplex]|e];
      [apply IH|reflexivity].
  - apply retained_not_denied. unfold retained. now rewrite Hm.
Qed.

(** X14. The remote source asks for the link settings of the retained
    interfaces only: two servers that give the same uptime and the same
    rows, and the same link settings for every name without [docker],
    [virbr] and [veth], give the same result, whatever they answer, or
    fail to answer, for the other names. *)
Theorem readNetdevsRemote_link_settings_of_retained (db1 db2 : DB) :
  QueryRow_uptime db1 = QueryRow_uptime db2 ->
  Query_netdev db1 = Query_netdev db2 ->
  (forall name, ~ denied name -> QueryRow_link db1 name = QueryRow_link db2 name) ->
  readNetdevsRemote db1 = readNetdevsRemote db2.
Proof.
  intros Hu Hq HL. unfold readNetdevsRemote. rewrite Hu, Hq.
  destruct (Query_netdev db2) as [rows|e]; [|reflexivity].
  now apply remote_loop_links.
Qed.

(** ** All sources *)

Section AllSources.

Variable os_Open : string -> result (list string).
Variable uptime : result float64.
Variable Sscanln : string -> result Row.
Variable GetLinkSettings : string -> Z * Z * option error.

(** X15. No source returns a partial snapshot: whenever [readNetdevs],
    [readNetdevsLocal] or [readNetdevsRemote] returns an error, the
    snapshot it returns with it is [nil]. *)
Theorem error_means_nil_snapshot :
  (forall statfile stat e,
     readNetdevsLocal os_Open uptime Sscanln GetLinkSettings statfile
       = (stat, Some e) -> stat = None) /\
  (forall db stat e, readNetdevsRemote db = (stat, Some e) -> stat = None) /\
  (forall db schemaExists stat e,
     readNetdevs os_Open uptime Sscanln GetLinkSettings db schemaExists
       = (stat, Some e) -> stat = None).
Proof.
  assert (HL : forall statfile stat e,
     readNetdevsLocal os_Open uptime Sscanln GetLinkSettings statfile
       = (stat, Some e) -> stat = None).
  { intros statfile stat e H. unfold readNetdevsLocal in H.
    destruct (os_Open statfile) as [lines|e']; [|congruence].
    destruct uptime as [up|e']; [|congruence].
    eapply local_loop_error; eassumption. }
  assert (HR : forall db stat e,
     readNetdevsRemote db = (stat, Some e) -> stat = None).
  { intros db stat e H. unfold readNetdevsRemote in H.
    destruct (Query_netdev db) as [rows|e']; [|congruence].
    eapply remote_loop_error; eassumption. }
  split; [exact HL|]. split; [exact HR|].
  intros db schemaExists stat e H. unfold readNetdevs in H.
  destruct (Local db); [now apply (HL _ _ _ H)|].
  destruct schemaExists; [now apply (HR _ _ _ H)|discriminate H].
Qed.

(** The names of a snapshot that [readNetdevs] returns pass the filter. *)
Lemma names_of_filter (stat : Netdevs) (names : list string) :
  map Ifname (elems stat) = filter retained names ->
  forall n, In n (elems stat) -> ~ denied (Ifname n).
Proof.
  intros E n Hn. apply retained_not_denied.
  assert (Hin : In (Ifname n) (map Ifname (elems stat))) by now apply in_map.
  rewrite E in Hin. now apply filter_In in Hin.
Qed.

Lemma readNetdevs_names db schemaExists stat :
  readNetdevs os_Open uptime Sscanln GetLinkSettings db schemaExists
    = (stat, None) ->
  forall n, In n (elems stat) -> ~ denied (Ifname n).
Proof.
  unfold readNetdevs. intros H.
  destruct (Local db).
  - destruct (readNetdevsLocal_names _ _ _ _ _ _ H) as (lines & rows & _ & _ & E).
    now apply (names_of_filter _ _ E).
  - destruct schemaExists.
    + destruct (readNetdevsRemote_names _ _ H) as (rows & _ & E).
      now apply (names_of_filter _ _ E).
    + inversion H; subst. intros n [].
Qed.

Lemma empty_name_not_denied : ~ denied "".
Proof.
  intros H. apply MatchString_denied in H. discriminate H.
Qed.

(** X16. The filter carries over to the delta: when [curr] is a snapshot
    that [readNetdevs] returned, no entry of
    [countNetdevsUsage(prev, curr, ticks)] has a name with [docker],
    [virbr] or [veth], whatever [prev] is. *)
Theorem delta_names_pass_the_filter
    (sValue : float64 -> float64 -> float64 -> float64 -> float64)
    (duplexHalf duplexFull duplexUnknown : Z)
    (db : DB) (schemaExists : bool) (prev curr : Netdevs) (ticks : float64) :
  readNetdevs os_Open uptime Sscanln GetLinkSettings db schemaExists
    = (curr, None) ->
  forall o,
    In o (elems (countNetdevsUsage sValue duplexHalf duplexFull duplexUnknown
                   prev curr ticks)) ->
    ~ denied (Ifname o).
Proof.
  intros Hc o Ho.
  destruct (Nat.eq_dec (len prev) (len curr)) as [Hlen|Hne].
  - apply In_nth_error in Ho as [i Hi].
    assert (Hlt : (i < len curr)%nat).
    { rewrite <- (delta_length sValue duplexHalf duplexFull duplexUnknown
                    prev curr ticks Hlen).
      apply nth_error_Some. now rewrite Hi. }
    rewrite (delta_entry sValue duplexHalf duplexFull duplexUnknown
               prev curr ticks i Hlen Hlt) in Hi.
    injection Hi as <-.
    destruct (inactive (at_index (elems curr) i)).
    + exact empty_name_not_denied.
    + cbn [usage_entry_fields Ifname].
      apply (readNetdevs_names _ _ _ Hc). now apply nth_In.
  - unfold countNetdevsUsage in Ho.
    destruct (Nat.eqb_spec (len curr) (len prev)) as [E|_]; [congruence|].
    destruct Ho.
Qed.

End AllSources.

(** ** Uptime and interval *)

Lemma remote_loop_Uptime db up : forall rows stat0 stat,
  remote_loop db up rows stat0 = (stat, None) ->
  Forall (fun n => Uptime n = up) (elems stat0) ->
  Forall (fun n => Uptime n = up) (elems stat).
Proof.
  induction rows as [|row rest IH]; intros stat0 stat H H0;
    cbn [remote_loop] in H.
  - inversion H; subst. exact H0.
  - destruct row as [r|e]; [|discriminate H].
    destruct (MatchString _); [now apply (IH _ _ H)|].
    destruct (QueryRow_link db _) as [[speed duplex]|e]; [|discriminate H].
    apply (IH _ _ H). rewrite elems_append.
    apply Forall_app. split; [exact H0|]. constructor; [reflexivity|constructor].
Qed.

Lemma at_index_Forall (P : Netdev -> Prop) (l : list Netdev) (i : nat) :
  Forall P l -> (i < List.length l)%nat -> P (at_index l i).
Proof.
  intros H Hi. rewrite Forall_forall in H. apply H. now apply nth_In.
Qed.

(** X17. The samples of a remote snapshot all carry the uptime of their
    acquisition, so the delta of two remote snapshots has one interval,
    at every index: the difference of the two uptimes. When the uptime
    query failed in both acquisitions this interval is 0. *)
Theorem remote_interval_is_uniform (db1 db2 : DB) (prev curr : Netdevs)
    (i : nat) :
  readNetdevsRemote db1 = (prev, None) ->
  readNetdevsRemote db2 = (curr, None) ->
  len prev = len curr -> (i < len curr)%nat ->
  interval prev curr i = F64.sub (remote_uptime db2) (remote_uptime db1) /\
  (forall e1 e2, QueryRow_uptime db1 = Fail e1 -> QueryRow_uptime db2 = Fail e2 ->
     interval prev curr i = F64.zero).
Proof.
  intros Hp Hc Hlen Hi.
  assert (U : forall db stat, readNetdevsRemote db = (stat, None) ->
              Forall (fun n => Uptime n = remote_uptime db) (elems stat)).
  { intros db stat H. unfold readNetdevsRemote in H.
    destruct (Query_netdev db) as [rows|e]; [|discriminate H].
    fold (remote_uptime db) in H.
    apply (remote_loop_Uptime _ _ _ _ _ H). constructor. }
  assert (E : interval prev curr i =
              F64.sub (remote_uptime db2) (remote_uptime db1)).
  { unfold interval.
    rewrite (at_index_Forall _ _ i (U _ _ Hc)) by exact Hi.
    rewrite (at_index_Forall _ _ i (U _ _ Hp)) by (unfold len in *; lia).
    reflexivity. }
  split; [exact E|].
  intros e1 e2 H1 H2. rewrite E. unfold remote_uptime. now rewrite H1, H2.
Qed.

(** X18. Two remote snapshots can be compared exactly when they retain the
    same number of interfaces: the delta is [nil] if and only if the two
    queries returned different numbers of rows that pass the filter. *)
Theorem remote_delta_nil_iff
    (sValue : float64 -> float64 -> float64 -> float64 -> float64)
    (duplexHalf duplexFull duplexUnknown : Z)
    (db1 db2 : DB) (rows1 rows2 : list Row) (prev curr : Netdevs)
    (ticks : float64) :
  Query_netdev db1 = Ok (map Ok rows1) ->
  Query_netdev db2 = Ok (map Ok rows2) ->
  readNetdevsRemote db1 = (prev, None) ->
  readNetdevsRemote db2 = (curr, None) ->
  (countNetdevsUsage sValue duplexHalf duplexFull duplexUnknown prev curr ticks
     = None <->
   List.length (retained_rows rows1) <> List.length (retained_rows rows2)).
Proof.
  intros Hq1 Hq2 Hp Hc.
  assert (L : forall db rows stat,
              Query_netdev db = Ok (map Ok rows) ->
              readNetdevsRemote db = (stat, None) ->
              len stat = List.length (retained_rows rows)).
  { intros db rows stat Hq H.
    destruct (readNetdevsRemote_names _ _ H) as (rs & Hq' & E).
    rewrite Hq in Hq'. injection Hq' as Hq'.
    assert (Hrs : rows = rs).
    { clear - Hq'. revert rs Hq'.
      induction rows as [|r rows IH]; intros [|r' rs] H;
        simpl in H; try discriminate H; [reflexivity|].
      injection H as -> H. f_equal. now apply IH. }
    subst rs. unfold len. rewrite <- (length_map Ifname), E.
    unfold retained_rows. clear.
    induction rows as [|r rows IH]; simpl; [reflexivity|].
    destruct (retained (col_Ifname r)); simpl; now rewrite IH. }
  rewrite <- (L _ _ _ Hq1 Hp), <- (L _ _ _ Hq2 Hc).
  unfold countNetdevsUsage.
  destruct (Nat.eqb_spec (len curr) (len prev)) as [E|E]; simpl.
  - split; [discriminate | congruence].
  - split; [congruence | reflexivity].
Qed.

(** ** The local source, again *)

Lemma local_loop_Uptime (Sscanln : string -> result Row)
    (GetLinkSettings : string -> Z * Z * option error) statfile up :
  forall lines stat0 stat,
  local_loop Sscanln GetLinkSettings statfile up lines stat0 = (stat, None) ->
  Forall (fun n => Uptime n = up) (elems stat0) ->
  Forall (fun n => Uptime n = up) (elems stat).
Proof.
  induction lines as [|line rest IH]; intros stat0 stat H H0;
    cbn [local_loop] in H.
  - inversion H; subst. exact H0.
  - destruct (Sscanln line) as [r|e]; [|discriminate H].
    destruct (MatchString _); [now apply (IH _ _ H)|].
    destruct (GetLinkSettings _) as [[speed duplex] e].
    apply (IH _ _ H). rewrite elems_append.
    apply Forall_app. split; [exact H0|]. constructor; [reflexivity|constructor].
Qed.

(** X19. The samples of a local snapshot all carry the one uptime that the
    call read, so the delta of two local snapshots has one interval, at
    every index: the difference of the two uptimes. *)
Theorem local_interval_is_uniform
    (os_Open1 os_Open2 : string -> result (list string))
    (uptime1 uptime2 : result float64) (Sscanln : string -> result Row)
    (GetLinkSettings : string -> Z * Z * option error)
    (statfile : string) (up1 up2 : float64) (prev curr : Netdevs) (i : nat) :
  uptime1 = Ok up1 -> uptime2 = Ok up2 ->
  readNetdevsLocal os_Open1 uptime1 Sscanln GetLinkSettings statfile
    = (prev, None) ->
  readNetdevsLocal os_Open2 uptime2 Sscanln GetLinkSettings statfile
    = (curr, None) ->
  len prev = len curr -> (i < len curr)%nat ->
  interval prev curr i = F64.sub up2 up1.
Proof.
  intros -> -> Hp Hc Hlen Hi.
  assert (U : forall os_Open up stat,
              readNetdevsLocal os_Open (Ok up) Sscanln GetLinkSettings statfile
                = (stat, None) ->
              Forall (fun n => Uptime n = up) (elems stat)).
  { intros os_Open up stat H. unfold readNetdevsLocal in H.
    destruct (os_Open statfile) as [lines|e]; [|discriminate H].
    eapply local_loop_Uptime; [exact H|constructor]. }
  unfold interval.
  rewrite (at_index_Forall _ _ i (U _ _ _ Hc)) by exact Hi.
  rewrite (at_index_Forall _ _ i (U _ _ _ Hp)) by (unfold len in *; lia).
  reflexivity.
Qed.

(** ** The further properties on sample data *)

Lemma countNetdevsUsage_nil_iff_witness :
  ex_delta (Some [eth0_before]) None ex_ticks = None /\
  exists out,
    ex_delta None None ex_ticks = Some out /\ List.length out = 0%nat.
Proof.
  split.
  - apply (proj1 (countNetdevsUsage_nil_iff sValue_spec ex_half ex_full
                    ex_unknown (Some [eth0_before]) None ex_ticks)).
    simpl. discriminate.
  - exact (proj2 (countNetdevsUsage_nil_iff sValue_spec ex_half ex_full
                    ex_unknown None None ex_ticks) eq_refl).
Defined.

Lemma active_entry_identity_witness :
  let prev := Some [eth0_before] in
  let curr := Some [eth0_after 1000000000 ex_full] in
  exists o,
    nth_error (elems (ex_delta prev curr ex_ticks)) 0 = Some o /\
    Ifname o = "eth0"%string /\ Speed o = 1000000000 /\ Duplex o = ex_full /\
    Packets o = F64.add (F64.of_Z 20) (F64.of_Z 15).
Proof.
  intros prev curr.
  destruct (active_entry_identity sValue_spec ex_half ex_full ex_unknown
              prev curr ex_ticks 0 eq_refl (le_n 1)) as (o & Ho & _ & Hid).
  exists o. split; [exact Ho|]. exact (Hid eq_refl).
Defined.

Lemma computed_and_untouched_fields_witness :
  let prev := Some [eth0_before] in
  let curr := Some [eth0_after 1000000000 ex_full] in
  exists o,
    nth_error (elems (ex_delta prev curr ex_ticks)) 0 = Some o /\
    Rdrop o = F64.zero /\ Uptime o = F64.zero /\
    Rbytes o =
      sValue_spec (F64.of_Z 1000) (F64.of_Z 2000) (interval prev curr 0)
        ex_ticks.
Proof.
  intros prev curr.
  destruct (computed_and_untouched_fields sValue_spec ex_half ex_full
              ex_unknown prev curr ex_ticks 0 eq_refl (le_n 1))
    as (o & Ho & Hz & Hr).
  exists o. split; [exact Ho|].
  split; [apply (Hz Rdrop); simpl; tauto|].
  split; [apply (Hz Uptime); simpl; tauto|].
  apply (Hr eq_refl Rbytes). simpl; tauto.
Defined.


Lemma utilization_never_exceeds_100_witness :
  let prev := Some [eth0_before] in
  let curr := Some [eth0_after 8 ex_half] in
  exists o,
    nth_error (elems (ex_delta prev curr ex_ticks)) 0 = Some o /\
    F64.gtb (Rutil o) (F64.of_Z 100) = false /\
    F64.gtb (Tutil o) (F64.of_Z 100) = false /\
    F64.gtb (Utilization o) (F64.of_Z 100) = false.
Proof.
  intros prev curr.
  exact (utilization_never_exceeds_100 sValue_spec ex_half ex_full ex_unknown
           prev curr ex_ticks 0 eq_refl (le_n 1)).
Defined.

Lemma utilization_is_a_percentage_witness :
  let prev := Some [eth0_before] in
  let curr := Some [eth0_after 1000000000 ex_half] in
  exists o,
    nth_error (elems (ex_delta prev curr ex_ticks)) 0 = Some o /\
    F64.leb F64.zero (Utilization o) = true /\
    F64.leb (Utilization o) (F64.of_Z 100) = true.
Proof.
  intros prev curr.
  destruct (utilization_is_a_percentage sValue_spec ex_half ex_full ex_unknown
              prev curr ex_ticks 0 eq_refl (le_n 1) eq_refl
              (conj eq_refl eq_refl)) as (o & Ho & Hp).
  exists o. split; [exact Ho|].
  apply Hp; vm_compute in Ho; injection Ho as <-; reflexivity.
Defined.

Lemma other_duplex_no_utilization_witness :
  let prev := Some [eth0_before] in
  let curr := Some [eth0_after 1000000000 7] in
  exists o,
    nth_error (elems (ex_delta prev curr ex_ticks)) 0 = Some o /\
    Utilization o = F64.zero.
Proof.
  intros prev curr.
  apply (other_duplex_no_utilization sValue_spec ex_half ex_full ex_unknown
           prev curr ex_ticks 0 eq_refl (le_n 1) eq_refl eq_refl);
    discriminate.
Defined.

Lemma countNetdevsUsage_app_witness :
  ex_delta (Some [eth0_before; eth1_idle])
           (Some [eth0_after 1000000000 ex_full; eth1_idle]) ex_ticks =
  Some (List.app
          (elems (ex_delta (Some [eth0_before])
                    (Some [eth0_after 1000000000 ex_full]) ex_ticks))
          (elems (ex_delta (Some [eth1_idle]) (Some [eth1_idle]) ex_ticks))).
Proof.
  exact (countNetdevsUsage_app sValue_spec ex_half ex_full ex_unknown
           [eth0_before] [eth1_idle] [eth0_after 1000000000 ex_full]
           [eth1_idle] ex_ticks eq_refl eq_refl).
Defined.

Lemma readNetdevsLocal_errors_witness :
  readNetdevsLocal ex_Open_bad ex_uptime ex_Sscanln ex_GetLinkSettings
    "/proc/net/dev" = (None, Some (Err "/proc/net/dev bad content")).
Proof.
  destruct (readNetdevsLocal_errors ex_Open_bad ex_uptime ex_Sscanln
              ex_GetLinkSettings "/proc/net/dev") as (_ & _ & Hbad).
  apply (Hbad _ (F64.of_Z 3600) ""%string (Err "unexpected newline") eq_refl
           eq_refl).
  - simpl. right. left. reflexivity.
  - reflexivity.
Defined.

Lemma ex_file_rows_scanned :
  Forall2 (fun line r => ex_Sscanln line = Ok r)
    ["docker0:"; "eth0:"; "veth1a2b3c:"; "wlan0:"]%string ex_file_rows.
Proof. repeat constructor. Defined.

Lemma readNetdevsLocal_snapshot_witness :
  readNetdevsLocal ex_Open ex_uptime ex_Sscanln ex_GetLinkSettings
    "/proc/net/dev" =
  (Some [local_sample ex_GetLinkSettings (F64.of_Z 3600) (ex_row "eth0:");
         local_sample ex_GetLinkSettings (F64.of_Z 3600) (ex_row "wlan0:")],
   None).
Proof.
  exact (readNetdevsLocal_snapshot ex_Open ex_uptime ex_Sscanln
           ex_GetLinkSettings "/proc/net/dev" _ (F64.of_Z 3600) ex_file_rows
           eq_refl eq_refl ex_file_rows_scanned).
Defined.

Lemma ex_picky_agrees (name : string) :
  ~ denied name -> ex_GetLinkSettings name = ex_GetLinkSettings_picky name.
Proof.
  intros H. unfold ex_GetLinkSettings_picky.
  destruct (MatchString name) eqn:E; [|reflexivity].
  apply MatchString_denied in E. contradiction.
Defined.

Lemma readNetdevsLocal_link_settings_of_retained_witness :
  readNetdevsLocal ex_Open ex_uptime ex_Sscanln ex_GetLinkSettings
    "/proc/net/dev" =
  readNetdevsLocal ex_Open ex_uptime ex_Sscanln ex_GetLinkSettings_picky
    "/proc/net/dev".
Proof.
  exact (readNetdevsLocal_link_settings_of_retained ex_Open ex_uptime
           ex_Sscanln ex_GetLinkSettings ex_GetLinkSettings_picky
           "/proc/net/dev" ex_picky_agrees).
Defined.

Lemma ex_links_answer (rows : list Row) : links_answer ex_db_no_uptime rows.
Proof. intros r _ _. eexists. reflexivity. Defined.

Lemma readNetdevsRemote_snapshot_witness :
  readNetdevsRemote ex_db_no_uptime =
    (Some [remote_sample ex_db_no_uptime (ex_row "eth0")], None) /\
  Forall (fun n => Uptime n = F64.zero)
    (elems (fst (readNetdevsRemote ex_db_no_uptime))).
Proof.
  destruct (readNetdevsRemote_snapshot ex_db_no_uptime ex_db_rows eq_refl
              (ex_links_answer ex_db_rows)) as [Hs Hu].
  split; [exact Hs|]. exact (Hu (Err "no uptime") eq_refl).
Defined.

Lemma readNetdevsRemote_errors_witness :
  readNetdevsRemote ex_db_bad_row = (None, Some (Err "scan error")) /\
  readNetdevsRemote ex_db_bad_link = (None, Some (Err "no link")).
Proof.
  split.
  - destruct (readNetdevsRemote_errors ex_db_bad_row) as (_ & Hrow & _).
    apply (Hrow [ex_row "eth0"] (Err "scan error") [Ok (ex_row "wlan0")]
             eq_refl).
    intros r _ _. eexists. reflexivity.
  - destruct (readNetdevsRemote_errors ex_db_bad_link) as (_ & _ & Hlink).
    apply (Hlink [ex_row "docker0"; ex_row "eth0"] (ex_row "wlan0")
             (Err "no link") [] eq_refl).
    + intros r [<-|[<-|[]]] Hr; [discriminate Hr|]. eexists. reflexivity.
    + apply retained_not_denied. reflexivity.
    + reflexivity.
Defined.

Lemma ex_db_picky_agrees (name : string) :
  ~ denied name ->
  QueryRow_link ex_db_no_uptime name = QueryRow_link ex_db_picky name.
Proof.
  intros H. cbn [QueryRow_link ex_db_no_uptime ex_db_picky].
  destruct (MatchString name) eqn:E; [|reflexivity].
  apply MatchString_denied in E. contradiction.
Defined.

Lemma readNetdevsRemote_link_settings_of_retained_witness :
  readNetdevsRemote
    (mkDB false (Ok (F64.of_Z 3600)) (Ok (map Ok ex_db_rows))
       (QueryRow_link ex_db_no_uptime)) =
  readNetdevsRemote ex_db_picky.
Proof.
  exact (readNetdevsRemote_link_settings_of_retained
           (mkDB false (Ok (F64.of_Z 3600)) (Ok (map Ok ex_db_rows))
              (QueryRow_link ex_db_no_uptime))
           ex_db_picky eq_refl eq_refl ex_db_picky_agrees).
Defined.

Lemma ex_bad_row_result :
  readNetdevsRemote ex_db_bad_row = (None, Some (Err "scan error")).
Proof. vm_compute. reflexivity. Defined.

Lemma error_means_nil_snapshot_witness :
  fst (readNetdevsRemote ex_db_bad_row) = None.
Proof.
  destruct (error_means_nil_snapshot ex_Open ex_uptime ex_Sscanln
              ex_GetLinkSettings) as (_ & Hremote & _).
  rewrite ex_bad_row_result.
  exact (Hremote ex_db_bad_row None (Err "scan error") ex_bad_row_result).
Defined.

Lemma ex_readNetdevs_later :
  readNetdevs ex_Open ex_uptime ex_Sscanln ex_GetLinkSettings ex_db_later true
    = (ex_remote_later, None).
Proof. vm_compute. reflexivity. Defined.

Lemma delta_names_pass_the_filter_witness :
  ~ denied (Ifname (at_index
                      (elems (ex_delta ex_remote ex_remote_later ex_ticks)) 0)).
Proof.
  apply (delta_names_pass_the_filter ex_Open ex_uptime ex_Sscanln
           ex_GetLinkSettings sValue_spec ex_half ex_full ex_unknown
           ex_db_later true ex_remote ex_remote_later ex_ticks
           ex_readNetdevs_later).
  vm_compute. left. reflexivity.
Defined.

Lemma remote_interval_is_uniform_witness :
  interval ex_remote ex_remote_later 0 =
    F64.sub (F64.of_Z 3601) (F64.of_Z 3600).
Proof.
  exact (proj1 (remote_interval_is_uniform ex_db ex_db_later ex_remote
                  ex_remote_later 0 ex_remote_ok ex_remote_later_ok eq_refl
                  (le_n 1))).
Defined.

Lemma remote_delta_nil_iff_witness :
  ex_delta ex_remote ex_remote_later ex_ticks = None <->
  List.length (retained_rows ex_db_rows)
    <> List.length (retained_rows ex_db_rows).
Proof.
  exact (remote_delta_nil_iff sValue_spec ex_half ex_full ex_unknown
           ex_db ex_db_later ex_db_rows ex_db_rows ex_remote ex_remote_later
           ex_ticks eq_refl eq_refl ex_remote_ok ex_remote_later_ok).
Defined.

Lemma ex_local_later_ok :
  readNetdevsLocal ex_Open ex_uptime_later ex_Sscanln ex_GetLinkSettings
    "/proc/net/dev" = (ex_local_later, None).
Proof. vm_compute. reflexivity. Defined.

Lemma local_interval_is_uniform_witness :
  interval ex_local ex_local_later 1 =
    F64.sub (F64.of_Z 3601) (F64.of_Z 3600).
Proof.
  exact (local_interval_is_uniform ex_Open ex_Open ex_uptime ex_uptime_later
           ex_Sscanln ex_GetLinkSettings "/proc/net/dev"
           (F64.of_Z 3600) (F64.of_Z 3601) ex_local ex_local_later 1
           eq_refl eq_refl ex_local_ok ex_local_later_ok eq_refl (le_n 2)).
Defined.

(** * Utilization, from the counters of the two snapshots *)

(** ** Products and quotients by a positive finite number are numbers *)





Section Utilization.

Variable sValue : float64 -> float64 -> float64 -> float64 -> float64.
Variables duplexHalf duplexFull duplexUnknown : Z.


Section Switch.

(** The three constants are the cases of one [switch]: they are distinct. *)
Hypothesis duplex_distinct :
  duplexHalf <> duplexFull /\ duplexUnknown <> duplexFull /\
  duplexUnknown <> duplexHalf.

(** C6. At an active entry with a positive link speed and half duplex,
    [Utilization = math.Min((rb+tb)*800/speed, 100)], where [rb] and [tb]
    are the received and the transmitted byte rate of the entry, [sValue]
    of the previous and current byte counters, and 800 is 8 (bits) times
    100 (percent). This value never exceeds 100, and is [<= 100] as soon
    as it is a number. *)
Theorem half_duplex_utilization (prev curr : Netdevs) (ticks : float64)
    (i : nat) :
  let p := at_index (elems prev) i in
  let c := at_index (elems curr) i in
  let rb := sValue (Rbytes p) (Rbytes c) (interval prev curr i) ticks in
  let tb := sValue (Tbytes p) (Tbytes c) (interval prev curr i) ticks in
  len prev = len curr -> (i < len curr)%nat ->
  inactive c = false ->
  0 < Speed c ->
  Duplex c = duplexHalf ->
  exists o,
    nth_error
      (elems (countNetdevsUsage sValue duplexHalf duplexFull duplexUnknown
                prev curr ticks)) i = Some o /\
    Rbytes o = rb /\ Tbytes o = tb /\
    Utilization o =
      F64.Min (F64.div (F64.mul (F64.add rb tb) (F64.of_Z (8 * 100)))
                       (F64.of_Z (Speed c)))
              (F64.of_Z 100) /\
    F64.gtb (Utilization o) (F64.of_Z 100) = false /\
    (F64.IsNaN (Utilization o) = false ->
     F64.leb (Utilization o) (F64.of_Z 100) = true).
Proof.
  intros p c rb tb Hlen Hi Hact Hs Hd. eexists.
  split; [now apply delta_active|].
  fold p c. apply Z.ltb_lt in Hs.
  assert (Hf : (Duplex c =? duplexFull) = false)
    by (apply Z.eqb_neq; rewrite Hd; apply duplex_distinct).
  apply Z.eqb_eq in Hd.
  cbn [usage_entry_fields Rbytes Tbytes Utilization]. rewrite Hs, Hf, Hd.
  split; [reflexivity|]. split; [reflexivity|]. split; [reflexivity|].
  split; [now apply Min_not_gtb_r | now apply Min_leb_r].
Qed.

(** C7. At an active entry with a positive link speed and unknown duplex,
    [Rutil] and [Tutil] are still computed, as
    [math.Min(rate*800/speed, 100)] of the received and of the transmitted
    byte rate, [sValue] of the previous and current byte counters, and
    they are kept in the output, while [Utilization] is 0. *)
Theorem unknown_duplex_utilization (prev curr : Netdevs) (ticks : float64)
    (i : nat) :
  let p := at_index (elems prev) i in
  let c := at_index (elems curr) i in
  let rb := sValue (Rbytes p) (Rbytes c) (interval prev curr i) ticks in
  let tb := sValue (Tbytes p) (Tbytes c) (interval prev curr i) ticks in
  len prev = len curr -> (i < len curr)%nat ->
  inactive c = false ->
  0 < Speed c ->
  Duplex c = duplexUnknown ->
  exists o,
    nth_error
      (elems (countNetdevsUsage sValue duplexHalf duplexFull duplexUnknown
                prev curr ticks)) i = Some o /\
    Rbytes o = rb /\ Tbytes o = tb /\
    Rutil o =
      F64.Min (F64.div (F64.mul rb (F64.of_Z (8 * 100))) (F64.of_Z (Speed c)))
              (F64.of_Z 100) /\
    Tutil o =
      F64.Min (F64.div (F64.mul tb (F64.of_Z (8 * 100))) (F64.of_Z (Speed c)))
              (F64.of_Z 100) /\
    Utilization o = F64.zero.
Proof.
  intros p c rb tb Hlen Hi Hact Hs Hd. eexists.
  split; [now apply delta_active|].
  fold p c. apply Z.ltb_lt in Hs.
  assert (Hf : (Duplex c =? duplexFull) = false)
    by (apply Z.eqb_neq; rewrite Hd; apply duplex_distinct).
  assert (Hh : (Duplex c =? duplexHalf) = false)
    by (apply Z.eqb_neq; rewrite Hd; apply duplex_distinct).
  cbn [usage_entry_fields Rbytes Tbytes Rutil Tutil Utilization].
  rewrite Hs, Hf, Hh. repeat split.
Qed.

End Switch.

End Utilization.

(** ** The claims on utilization and saturation, on sample data *)



(** On a link of 8 bit/s the summed byte rate is far above the capacity,
    and the utilization is 100. *)
Lemma half_duplex_utilization_witness :
  let prev := Some [eth0_before] in
  let curr := Some [eth0_after 8 ex_half] in
  exists o,
    nth_error (elems (ex_delta prev curr ex_ticks)) 0 = Some o /\
    Rbytes o = F64.of_Z 100000 /\ Tbytes o = F64.of_Z 100000 /\
    Utilization o = F64.of_Z 100 /\
    F64.leb (Utilization o) (F64.of_Z 100) = true.
Proof.
  intros prev curr.
  destruct (half_duplex_utilization sValue_spec ex_half ex_full ex_unknown
              ex_duplex_distinct prev curr ex_ticks 0 eq_refl (le_n 1)
              eq_refl eq_refl eq_refl)
    as (o & Ho & Hr & Ht & Hu & _ & Hle).
  exists o. split; [exact Ho|].
  split; [rewrite Hr; vm_compute; reflexivity|].
  split; [rewrite Ht; vm_compute; reflexivity|].
  split; [rewrite Hu; vm_compute; reflexivity|].
  apply Hle. rewrite Hu. vm_compute. reflexivity.
Defined.

Lemma unknown_duplex_utilization_witness :
  let prev := Some [eth0_before] in
  let curr := Some [eth0_after 1000000000 ex_unknown] in
  exists o,
    nth_error (elems (ex_delta prev curr ex_ticks)) 0 = Some o /\
    Rbytes o = F64.of_Z 100000 /\
    Rutil o = F64.div (F64.of_Z 8) (F64.of_Z 100) /\
    Tutil o = F64.div (F64.of_Z 8) (F64.of_Z 100) /\
    Utilization o = F64.zero.
Proof.
  intros prev curr.
  destruct (unknown_duplex_utilization sValue_spec ex_half ex_full ex_unknown
              ex_duplex_distinct prev curr ex_ticks 0 eq_refl (le_n 1)
              eq_refl eq_refl eq_refl)
    as (o & Ho & Hr & _ & Hru & Htu & Hu).
  exists o. split; [exact Ho|].
  split; [rewrite Hr; vm_compute; reflexivity|].
  split; [rewrite Hru; vm_compute; reflexivity|].
  split; [rewrite Htu; vm_compute; reflexivity|exact Hu].
Defined.

